(** * Privacy Glasses: a shallow embedding of [main.ts]

    The plugin decides, for every open panel of the host, whether its
    content is shown plainly or blurred.  This file embeds the decision
    function [shouldRevealLeaf], the idle tick [checkIdleTimeout], the
    restyling passes and the [setState] hook, and proves what they do.

    JavaScript numbers are binary64 floats, CSS class lists finite sets
    of strings, DOM elements identifiers into a store, exceptions an
    explicit [Throw] outcome. *)

From Stdlib Require Import Floats.
From stdpp Require Import gmap strings list.

Open Scope string_scope.
Open Scope list_scope.

(** ** JavaScript outcomes *)

Inductive JsError : Type :=
  | TypeError
  | HostError (code : nat).

Inductive Outcome (A : Type) : Type :=
  | Return (a : A)
  | Throw (e : JsError).
Arguments Return {A} a.
Arguments Throw {A} e.

(** [String.prototype.contains] as the host defines it: substring test. *)
Fixpoint contains (s target : string) : bool :=
  String.prefix target s ||
  match s with
  | EmptyString => false
  | String _ s' => contains s' target
  end.

(** Truthiness of a string: only the empty string is falsy. *)
Definition truthy_string (s : string) : bool :=
  negb (String.eqb s "").

(** Truthiness of a number: zero, of either sign, and [NaN] are falsy. *)
Definition truthy_float (t : float) : bool :=
  negb (is_zero t || is_nan t).

(** Truthiness of [number | undefined]: [undefined] is falsy as well. *)
Definition truthy_number (n : option float) : bool :=
  match n with
  | None => false
  | Some t => truthy_float t
  end.

(** ** Constants *)

Inductive Level : Type :=
  | HideAll
  | HidePrivate
  | RevealAll
  | RevealHeadlines.

Definition Level_value (l : Level) : string :=
  match l with
  | HideAll => "hide-all"
  | HidePrivate => "hide-private"
  | RevealAll => "reveal-all"
  | RevealHeadlines => "reveal-headlines"
  end.

Definition Level_eqb (a b : Level) : bool :=
  match a, b with
  | HideAll, HideAll | HidePrivate, HidePrivate
  | RevealAll, RevealAll | RevealHeadlines, RevealHeadlines => true
  | _, _ => false
  end.

Module CssClass.
Definition BlurAll : string := "privacy-glasses-blur-all".
Definition RevealOnHover : string := "privacy-glasses-reveal-on-hover".
Definition RevealAll : string := "privacy-glasses-reveal-all".
Definition RevealUnderCaret : string := "privacy-glasses-reveal-under-caret".
Definition RevealHeadlines : string := "privacy-glasses-reveal-headlines".
Definition Reveal : string := "privacy-glasses-reveal".
Definition IsMdView : string := "is-md-view".
Definition IsNonMdView : string := "is-non-md-view".
Definition IsMdViewHeadlinesOnly : string := "is-md-view-headlines-only".
Definition PrivacyGlassesReveal : string := "privacy-glasses-reveal".
End CssClass.

(** ** Settings *)

Record PrivacyGlassesSettings : Type := {
  blurOnStartup : Level;
  blurLevel : float;
  blurOnIdleTimeoutSeconds : float;
  hoverToReveal : bool;
  revealUnderCaret : bool;
  privateDirs : string;
  privateNoteMarker : string;
}.

(** The double nearest to 0.3. *)
Definition three_tenths : float := 0x1.3333333333333p-2.

Definition DEFAULT_SETTINGS : PrivacyGlassesSettings := {|
  blurOnStartup := HidePrivate;
  blurLevel := three_tenths;
  blurOnIdleTimeoutSeconds := -1;
  hoverToReveal := true;
  revealUnderCaret := false;
  privateDirs := "";
  privateNoteMarker := "#private";
|}.

(** ** Host objects: files, metadata, views *)

Record TFolder : Type := { path : string }.

Record TFile : Type := {
  file_path : string;
  parent : option TFolder;
}.

Record TagCache : Type := { tag : string }.

(** A value of a note's properties, as the host parses it from YAML:
    [tags: private] is a string, [tags:] is [null], [tags: [a, 7]] a
    list of a string and a number. *)
#[local] Set Warnings "-register-all".
Inductive Yaml : Type :=
  | YNull
  | YBool (b : bool)
  | YNumber (n : float)
  | YString (s : string)
  | YList (items : list Yaml)
  | YObject.

(** [!!x]. *)
Definition truthy (x : Yaml) : bool :=
  match x with
  | YNull => false
  | YBool b => b
  | YNumber n => truthy_float n
  | YString s => truthy_string s
  | YList _ => true
  | YObject => true
  end.

(** [x === marker] for a string [marker]. *)
Definition is_string (marker : string) (x : Yaml) : bool :=
  match x with
  | YString s => String.eqb s marker
  | _ => false
  end.

(** [tags.includes(marker)]. *)
Definition includes (tags : list Yaml) (marker : string) : bool :=
  existsb (is_string marker) tags.

(** The frontmatter object; [fm_tags] is its optional [tags] key, with
    whatever value the note gives it. *)
Record FrontMatterCache : Type := { fm_tags : option Yaml }.

(** [CachedMetadata]: both keys are optional. *)
Record CachedMetadata : Type := {
  tags : option (list TagCache);
  frontmatter : option FrontMatterCache;
}.

(** The host's metadata cache.  [getFileCache] is host code: it may
    return [null] and, being handed whatever [view.file] holds, may throw. *)
Record MetadataCache : Type := {
  getFileCache : option TFile -> Outcome (option CachedMetadata);
}.

Definition ElemId : Type := nat.

(** The two closures [ensureLeavesHooked] hands to the hook. *)
Inductive Callback : Type :=
  | CallOnBeforeViewStateChange
  | CallOnAfterViewStateChange.

(** The function stored under a view's [setState]: the host's own
    method, or the wrapper built by [hookViewStateChanged] around
    [original] with its two callbacks. *)
Inductive SetStateFn : Type :=
  | HostSetState (impl : nat)
  | HookWrapper (original : SetStateFn)
                (onBeforeStateChange onAfterStateChange : Callback).

Inductive PropValue : Type :=
  | NotCallable
  | Callable (f : SetStateFn).

(** A view.  [own_file] is the own property [file]: absent, or present
    holding [null] or a file.  [editor] records whether [view.editor] is
    truthy.  [own_setState] is the own property [setState], if any;
    [proto_setState] is what the prototype provides. *)
Record View : Type := {
  containerEl : ElemId;
  own_file : option (option TFile);
  editor : bool;
  own_setState : option PropValue;
  proto_setState : SetStateFn;
}.

Definition isMarkdownFileInfoView (x : View) : bool :=
  match own_file x with
  | Some _ => true
  | None => false
  end.

(** [view.file] read as a value: a missing property reads as [undefined]. *)
Definition view_file (x : View) : option TFile :=
  match own_file x with
  | Some f => f
  | None => None
  end.

(** ** The plugin instance and the part of the host it touches *)

Inductive Task : Type :=
  | TaskUpdateLeavesStyle.

(** [settings], [lastEventTime], [currentLevel] and [revealed] are the
    plugin's fields.  [metadataCache] and [leaves] stand for
    [this.app.metadataCache] and the views that
    [this.app.workspace.iterateAllLeaves] visits, in order.  [classes]
    holds the [classList] of every element, [body] that of
    [document.body], [timeouts] the pending [setTimeout] calls. *)
Record World : Type := {
  settings : PrivacyGlassesSettings;
  lastEventTime : option float;
  currentLevel : Level;
  revealed : list ElemId;
  metadataCache : MetadataCache;
  leaves : list View;
  classes : gmap ElemId (gset string);
  body : gset string;
  timeouts : list (nat * Task);
}.

Definition set_currentLevel (l : Level) (w : World) : World :=
  {| settings := settings w; lastEventTime := lastEventTime w;
     currentLevel := l; revealed := revealed w;
     metadataCache := metadataCache w; leaves := leaves w;
     classes := classes w; body := body w; timeouts := timeouts w |}.

Definition set_revealed (r : list ElemId) (w : World) : World :=
  {| settings := settings w; lastEventTime := lastEventTime w;
     currentLevel := currentLevel w; revealed := r;
     metadataCache := metadataCache w; leaves := leaves w;
     classes := classes w; body := body w; timeouts := timeouts w |}.

Definition set_leaves (ls : list View) (w : World) : World :=
  {| settings := settings w; lastEventTime := lastEventTime w;
     currentLevel := currentLevel w; revealed := revealed w;
     metadataCache := metadataCache w; leaves := ls;
     classes := classes w; body := body w; timeouts := timeouts w |}.

Definition set_classes (c : gmap ElemId (gset string)) (w : World) : World :=
  {| settings := settings w; lastEventTime := lastEventTime w;
     currentLevel := currentLevel w; revealed := revealed w;
     metadataCache := metadataCache w; leaves := leaves w;
     classes := c; body := body w; timeouts := timeouts w |}.

Definition set_body (b : gset string) (w : World) : World :=
  {| settings := settings w; lastEventTime := lastEventTime w;
     currentLevel := currentLevel w; revealed := revealed w;
     metadataCache := metadataCache w; leaves := leaves w;
     classes := classes w; body := b; timeouts := timeouts w |}.

Definition set_settings (s : PrivacyGlassesSettings) (w : World) : World :=
  {| settings := s; lastEventTime := lastEventTime w;
     currentLevel := currentLevel w; revealed := revealed w;
     metadataCache := metadataCache w; leaves := leaves w;
     classes := classes w; body := body w; timeouts := timeouts w |}.

Definition set_metadataCache (m : MetadataCache) (w : World) : World :=
  {| settings := settings w; lastEventTime := lastEventTime w;
     currentLevel := currentLevel w; revealed := revealed w;
     metadataCache := m; leaves := leaves w;
     classes := classes w; body := body w; timeouts := timeouts w |}.

Definition set_timeouts (t : list (nat * Task)) (w : World) : World :=
  {| settings := settings w; lastEventTime := lastEventTime w;
     currentLevel := currentLevel w; revealed := revealed w;
     metadataCache := metadataCache w; leaves := leaves w;
     classes := classes w; body := body w; timeouts := t |}.

(** ** Exceptions as a monad *)

Definition obind {A B : Type} (m : Outcome A) (k : A -> Outcome B) : Outcome B :=
  match m with
  | Return a => k a
  | Throw e => Throw e
  end.

Notation "'let!' x ':=' m 'in' k" := (obind m (fun x => k))
  (at level 10, x name, m at level 100, k at level 200).

(** ['tags' in obj]: a [TypeError] when [obj] is [null] or [undefined],
    otherwise whether the key is present. *)
Definition tags_in {A B : Type} (obj : option A) (key : A -> option B) : Outcome bool :=
  match obj with
  | None => Throw TypeError
  | Some o => Return (bool_decide (is_Some (key o)))
  end.

(** [obj.key] where [obj] may be [null]: reading a property of [null]
    throws; reading a missing key and then calling a method on the
    [undefined] it yields throws as well. *)
Definition member {A B : Type} (obj : option A) (key : A -> option B) : Outcome B :=
  match obj with
  | None => Throw TypeError
  | Some o =>
      match key o with
      | None => Throw TypeError
      | Some b => Return b
      end
  end.

(** ** The visibility decision *)

(** [x.filter(f)]: only an array has the method; on anything else the
    call throws. *)
Definition filter_method (f : Yaml -> bool) (x : Yaml) : Outcome (list Yaml) :=
  match x with
  | YList items => Return (List.filter f items)
  | _ => Throw TypeError
  end.

(** Lines 294 to 302 of [shouldRevealLeaf]: the tags of the note body
    followed by the entries of the properties' tags, falsy ones
    dropped. *)
Definition noteTags (this : World) (view : View) : Outcome (list Yaml) :=
  let cache := getFileCache (metadataCache this) (view_file view) in
  let! c1 := cache in
  let! inBody := tags_in c1 tags in
  let! bodyTags :=
    (if inBody then
       let! c2 := cache in
       let! ts := member c2 tags in
       Return (map (fun x => YString (tag x))
                   (List.filter (fun x => truthy_string (tag x)) ts))
     else Return []) in
  let! c3 := cache in
  let! inProps := tags_in (c3 ≫= frontmatter) fm_tags in
  let! propTags :=
    (if inProps then
       let! c4 := cache in
       let! fm := member c4 frontmatter in
       let! ts := member (Some fm) fm_tags in
       filter_method truthy ts
     else Return []) in
  Return (bodyTags ++ propTags).

Definition shouldRevealLeaf (this : World) (view : View) : Outcome bool :=
  if Level_eqb (currentLevel this) RevealAll then Return true
  else if Level_eqb (currentLevel this) HideAll
          || Level_eqb (currentLevel this) RevealHeadlines then Return false
  else if negb (isMarkdownFileInfoView view) then Return true
  else
    let marker := privateNoteMarker (settings this) in
    let! byTags :=
      (if editor view && truthy_string marker && negb (String.eqb marker "") then
         let! tags := noteTags this view in
         if (0 <? length tags)%nat
         then Return (Some (negb (includes tags marker)))
         else Return None
       else Return None) in
    match byTags with
    | Some b => Return b
    | None =>
        match view_file view with
        | None => Return false
        | Some file =>
            let! dir := member (parent file) (fun d => Some (path d)) in
            if negb (contains (privateDirs (settings this)) dir)
            then Return true
            else Return false
        end
    end.

(** ** Class lists *)

Definition classList (w : World) (el : ElemId) : gset string :=
  default ∅ (classes w !! el).

Definition addClass (c : string) (el : ElemId) (w : World) : World :=
  set_classes (<[el := classList w el ∪ {[c]}]> (classes w)) w.

Definition removeClass (cs : list string) (el : ElemId) (w : World) : World :=
  set_classes (<[el := classList w el ∖ list_to_set cs]> (classes w)) w.

(** ** Restyling *)

(** A computation that mutates the world and may throw; what was
    mutated before the throw stays mutated. *)
Definition M (A : Type) : Type := World -> Outcome A * World.

Definition updateLeafViewStyle (view : View) : M unit := fun this =>
  let isMd := isMarkdownFileInfoView view && editor view in
  let el := containerEl view in
  let w1 := removeClass [CssClass.IsMdView; CssClass.IsNonMdView;
                         CssClass.IsMdViewHeadlinesOnly] el this in
  let w2 :=
    if isMd && Level_eqb (currentLevel w1) RevealHeadlines
    then addClass CssClass.IsMdViewHeadlinesOnly el w1
    else if isMd then addClass CssClass.IsMdView el w1
    else addClass CssClass.IsNonMdView el w1 in
  match shouldRevealLeaf w2 view with
  | Throw e => (Throw e, w2)
  | Return true =>
      let w3 := addClass CssClass.PrivacyGlassesReveal el w2 in
      (Return tt, set_revealed (revealed w3 ++ [el]) w3)
  | Return false =>
      (Return tt, removeClass [CssClass.PrivacyGlassesReveal] el w2)
  end.

(** [iterateAllLeaves]: the callback runs on every leaf in turn; an
    exception leaves the remaining leaves unvisited. *)
Fixpoint iterateAllLeaves (cb : View -> M unit) (ls : list View) : M unit :=
  fun w =>
    match ls with
    | [] => (Return tt, w)
    | v :: rest =>
        match cb v w with
        | (Return _, w') => iterateAllLeaves cb rest w'
        | (Throw e, w') => (Throw e, w')
        end
    end.

Definition updateLeavesStyle : M unit := fun this =>
  iterateAllLeaves updateLeafViewStyle (leaves this) this.

Definition removeAllClasses (this : World) : World :=
  set_body (body this ∖ list_to_set
              [CssClass.BlurAll; CssClass.RevealOnHover; CssClass.RevealAll;
               CssClass.RevealUnderCaret; CssClass.RevealHeadlines]) this.

Definition setClassToDocumentBody (currentLevel : Level) (this : World) : World :=
  match currentLevel with
  | HideAll => set_body (body this ∪ {[CssClass.BlurAll]}) this
  | RevealAll => set_body (body this ∪ {[CssClass.RevealAll]}) this
  | RevealHeadlines => set_body (body this ∪ {[CssClass.RevealHeadlines]}) this
  | HidePrivate => this
  end.

Definition updateGlobalRevealStyle (this : World) : World :=
  let w1 := removeAllClasses this in
  let w2 := setClassToDocumentBody (currentLevel w1) w1 in
  let w3 := if hoverToReveal (settings w2)
            then set_body (body w2 ∪ {[CssClass.RevealOnHover]}) w2 else w2 in
  if revealUnderCaret (settings w3)
  then set_body (body w3 ∪ {[CssClass.RevealUnderCaret]}) w3 else w3.

Definition updateLeavesAndGlobalReveals : M unit := fun this =>
  match updateLeavesStyle this with
  | (Return _, w) => (Return tt, updateGlobalRevealStyle w)
  | (Throw e, w) => (Throw e, w)
  end.

(** ** Idle monitor *)

(** One tick; [now] is the value [performance.now()] yields. *)
Definition checkIdleTimeout (now : float) : M unit := fun this =>
  if (blurOnIdleTimeoutSeconds (settings this) <? 0)%float
  then (Return tt, this)
  else if Level_eqb (currentLevel this) HideAll then (Return tt, this)
  else if negb (truthy_number (lastEventTime this)) then (Return tt, this)
  else
    match lastEventTime this with
    | None => (Return tt, this)
    | Some last =>
        if (blurOnIdleTimeoutSeconds (settings this)
              <=? (now - last) / 1000)%float
        then updateLeavesAndGlobalReveals (set_currentLevel HideAll this)
        else (Return tt, this)
    end.

(** ** The [setState] hook *)

(** What a switch operation hands back: [undefined], a value without a
    callable [then], or a promise together with the way it will settle. *)
Inductive Settlement : Type :=
  | Fulfilled
  | Rejected (reason : JsError).

Inductive JsValue : Type :=
  | Undefined
  | Plain
  | Thenable (fate : Settlement).

(** [typeof r.then === "function"]. *)
Definition then_is_function (r : JsValue) : Outcome bool :=
  match r with
  | Undefined => Throw TypeError
  | Plain => Return false
  | Thenable _ => Return true
  end.

(** A call of a switch operation, seen from its caller: what it
    returned or threw, the state at that moment, the work still pending
    until the returned promise settles, and the fulfilment reactions
    registered on that promise, oldest first. *)
Record Call (W : Type) : Type := {
  result : Outcome JsValue;
  on_return : W;
  pending : W -> W;
  reactions : list (W -> W);
}.
Arguments result {W} c.
Arguments on_return {W} c.
Arguments pending {W} c.
Arguments reactions {W} c.

(** The state once the call has settled.  Reactions registered with
    [then(f)] alone run on fulfilment only. *)
Definition settle {W : Type} (c : Call W) : W :=
  match result c with
  | Return (Thenable fate) =>
      let w := pending c (on_return c) in
      match fate with
      | Fulfilled => fold_left (fun acc f => f acc) (reactions c) w
      | Rejected _ => w
      end
  | _ => on_return c
  end.

Section Hook.
Context {W : Type}.
Variables onBeforeStateChange onAfterStateChange : W -> W.

(** The function [wrapper] inside [hookViewStateChanged]. *)
Definition wrapper (original : W -> Call W) (w : W) : Call W :=
  let w1 := onBeforeStateChange w in
  let c := original w1 in
  match result c with
  | Throw e => c
  | Return r =>
      match then_is_function r with
      | Throw e =>
          {| result := Throw e; on_return := on_return c;
             pending := pending c; reactions := reactions c |}
      | Return true =>
          {| result := Return r; on_return := on_return c;
             pending := pending c;
             reactions := reactions c ++ [onAfterStateChange] |}
      | Return false =>
          {| result := Return r;
             on_return := onAfterStateChange (on_return c);
             pending := pending c; reactions := reactions c |}
      end
  end.
End Hook.

Definition get_setState (view : View) : PropValue :=
  match own_setState view with
  | Some p => p
  | None => Callable (proto_setState view)
  end.

Definition isHooked (view : View) : bool :=
  bool_decide (is_Some (own_setState view)) &&
  match get_setState view with
  | Callable _ => true
  | NotCallable => false
  end.

Definition hookViewStateChanged (view : View)
    (onBeforeStateChange onAfterStateChange : Callback) : View :=
  let original := proto_setState view in
  {| containerEl := containerEl view;
     own_file := own_file view;
     editor := editor view;
     own_setState :=
       Some (Callable (HookWrapper original onBeforeStateChange onAfterStateChange));
     proto_setState := proto_setState view |}.

(** The body of the callback [ensureLeavesHooked] runs on each leaf. *)
Definition ensureHooked (view : View) : View :=
  if isHooked view then view
  else hookViewStateChanged view
         CallOnBeforeViewStateChange CallOnAfterViewStateChange.

Definition ensureLeavesHooked (this : World) : World :=
  set_leaves (map ensureHooked (leaves this)) this.

Definition onBeforeViewStateChange (this : World) : World :=
  fold_left (fun w r => removeClass [CssClass.Reveal] r w) (revealed this) this.

Definition onAfterViewStateChange (this : World) : World :=
  let w1 := set_timeouts (timeouts this ++ [(200%nat, TaskUpdateLeavesStyle)]) this in
  ensureLeavesHooked w1.

Definition run_callback (cb : Callback) : World -> World :=
  match cb with
  | CallOnBeforeViewStateChange => onBeforeViewStateChange
  | CallOnAfterViewStateChange => onAfterViewStateChange
  end.

(** Calling the function stored under [setState].  [host] says what
    each of the host's own switch operations does. *)
Fixpoint call_setState (host : nat -> World -> Call World) (f : SetStateFn)
    : World -> Call World :=
  match f with
  | HostSetState impl => host impl
  | HookWrapper original before after =>
      wrapper (run_callback before) (run_callback after)
              (call_setState host original)
  end.

(** How many wrappers sit between the caller and the host's operation. *)
Fixpoint layers (f : SetStateFn) : nat :=
  match f with
  | HostSetState _ => 0
  | HookWrapper original _ _ => S (layers original)
  end.

Definition view_layers (view : View) : nat :=
  match get_setState view with
  | Callable f => layers f
  | NotCallable => 0
  end.

(** ** Worked inputs *)

Module Sample.
(** Settings with the private directories ["finance,therapy"], the
    marker ["#private"] and an idle timeout of five seconds. *)
Definition config : PrivacyGlassesSettings := {|
  blurOnStartup := HidePrivate;
  blurLevel := three_tenths;
  blurOnIdleTimeoutSeconds := 5;
  hoverToReveal := true;
  revealUnderCaret := false;
  privateDirs := "finance,therapy";
  privateNoteMarker := "#private";
|}.

(** A cache that answers [entry] for every file and, like the host's,
    fails on a missing file. *)
Definition cache (entry : option CachedMetadata) : MetadataCache :=
  {| getFileCache := fun f =>
       match f with
       | Some _ => Return entry
       | None => Throw TypeError
       end |}.

(** A cache that answers [null] when there is no file. *)
Definition lenient_cache (entry : option CachedMetadata) : MetadataCache :=
  {| getFileCache := fun f =>
       match f with
       | Some _ => Return entry
       | None => Return None
       end |}.

Definition world (level : Level) (m : MetadataCache) : World := {|
  settings := config;
  lastEventTime := Some 1000%float;
  currentLevel := level;
  revealed := [];
  metadataCache := m;
  leaves := [];
  classes := ∅;
  body := ∅;
  timeouts := [];
|}.

Definition note (dir : string) : TFile :=
  {| file_path := dir +:+ "/note.md"; parent := Some {| path := dir |} |}.

(** An editing panel on a note in folder [dir]. *)
Definition panel (el : ElemId) (dir : string) : View := {|
  containerEl := el;
  own_file := Some (Some (note dir));
  editor := true;
  own_setState := None;
  proto_setState := HostSetState 0;
|}.

(** A file panel without an editor, such as an image or PDF panel. *)
Definition viewer (el : ElemId) (dir : string) : View := {|
  containerEl := el;
  own_file := Some (Some (note dir));
  editor := false;
  own_setState := None;
  proto_setState := HostSetState 0;
|}.

(** An editing panel whose [file] is [null]. *)
Definition blank (el : ElemId) (ed : bool) : View := {|
  containerEl := el;
  own_file := Some None;
  editor := ed;
  own_setState := None;
  proto_setState := HostSetState 0;
|}.

(** Metadata of a note with properties but no tags anywhere. *)
Definition untagged : option CachedMetadata :=
  Some {| tags := None; frontmatter := Some {| fm_tags := None |} |}.

(** Metadata of a note tagged [#private] in its body and [x] in its
    properties. *)
Definition tagged_private : option CachedMetadata :=
  Some {| tags := Some [ {| tag := "#private" |} ];
          frontmatter := Some {| fm_tags := Some (YList [YString "x"]) |} |}.

(** Metadata of a note tagged [#private] and [x] in its body, with no
    properties block. *)
Definition body_tagged : option CachedMetadata :=
  Some {| tags := Some [ {| tag := "#private" |}; {| tag := "x" |} ];
          frontmatter := None |}.

(** Metadata of a note whose properties read [tags: private]. *)
Definition scalar_tag : option CachedMetadata :=
  Some {| tags := None;
          frontmatter := Some {| fm_tags := Some (YString "private") |} |}.

(** Metadata of a note with no properties block at all. *)
Definition no_frontmatter : option CachedMetadata :=
  Some {| tags := None; frontmatter := None |}.
End Sample.

Module IdleSample.
(** Level [RevealAll], timeout five seconds, last activity at
    [t0 = 1000] ms, two open panels. *)
Definition world : World :=
  set_leaves [Sample.panel 1 "work/notes"; Sample.panel 2 "therapy"]
    (Sample.world RevealAll (Sample.cache Sample.untagged)).
End IdleSample.

Module FlickerSample.
(** Level [HidePrivate], two open panels outside the private
    directories, nothing styled yet. *)
Definition world : World :=
  set_leaves [Sample.panel 1 "work/notes"; Sample.panel 2 "journal"]
    (Sample.world HidePrivate (Sample.cache Sample.untagged)).
End FlickerSample.

(** ** Observing a switch *)

(** What can be seen happening around one switch. *)
Inductive Event : Type :=
  | EvBefore
  | EvSwitch
  | EvSettled
  | EvAfter.

Definition is_after (e : Event) : bool :=
  match e with
  | EvAfter => true
  | _ => false
  end.

(** How often the after-callback has fired in a trace. *)
Definition after_count (t : list Event) : nat :=
  length (List.filter is_after t).

Definition log (e : Event) (t : list Event) : list Event := t ++ [e].

(** A hooked switch whose callbacks do nothing but record themselves. *)
Definition traced_wrapper (original : list Event -> Call (list Event))
    : list Event -> Call (list Event) :=
  wrapper (log EvBefore) (log EvAfter) original.

(** An underlying switch that records its start, ends as [r] says and,
    when [r] is a promise, records the moment the promise settles. *)
Definition traced_switch (r : Outcome JsValue) (t : list Event)
    : Call (list Event) :=
  {| result := r; on_return := log EvSwitch t;
     pending := log EvSettled; reactions := [] |}.

(** Whether a switch succeeded, failed, or came back with nothing that
    [then] can be read from. *)
Inductive Verdict : Type :=
  | Succeeded
  | Failed
  | NothingReturned.

Definition verdict (r : Outcome JsValue) : Verdict :=
  match r with
  | Throw _ => Failed
  | Return (Thenable (Rejected _)) => Failed
  | Return (Thenable Fulfilled) => Succeeded
  | Return Plain => Succeeded
  | Return Undefined => NothingReturned
  end.

(** ** Hook states *)

(** The wrapper [ensureLeavesHooked] installs on [view]. *)
Definition installed_wrapper (view : View) : PropValue :=
  Callable (HookWrapper (proto_setState view)
              CallOnBeforeViewStateChange CallOnAfterViewStateChange).

Module HookSample.
(** Three open panels: two as the host creates them and one that
    carries a non-callable own [setState]. *)
Definition odd_panel : View := {|
  containerEl := 3;
  own_file := None;
  editor := false;
  own_setState := Some NotCallable;
  proto_setState := HostSetState 7;
|}.

Definition world : World :=
  set_leaves [Sample.panel 1 "work/notes"; Sample.viewer 2 "finance"; odd_panel]
    (Sample.world HidePrivate (Sample.cache Sample.untagged)).

(** A panel whose class defines [setState] as a field of the instance:
    an own callable [setState] that is not this plugin's wrapper. *)
Definition foreign_panel : View := {|
  containerEl := 4;
  own_file := None;
  editor := false;
  own_setState := Some (Callable (HostSetState 3));
  proto_setState := HostSetState 7;
|}.

Definition mixed : World :=
  set_leaves [Sample.panel 1 "work/notes"; foreign_panel]
    (Sample.world HidePrivate (Sample.cache Sample.untagged)).
End HookSample.

(** ** Commands, events and timers *)

Definition set_lastEventTime (t : option float) (w : World) : World :=
  {| settings := settings w; lastEventTime := t;
     currentLevel := currentLevel w; revealed := revealed w;
     metadataCache := metadataCache w; leaves := leaves w;
     classes := classes w; body := body w; timeouts := timeouts w |}.

(** The callback shared by the four ribbon icons and the four commands:
    set the level, then restyle. *)
Definition command (level : Level) : M unit := fun this =>
  updateLeavesAndGlobalReveals (set_currentLevel level this).

(** The [mousedown] and [keydown] handlers that
    [registerDomActivityEvents] installs. *)
Definition onActivity (timeStamp : float) (this : World) : World :=
  set_lastEventTime (Some timeStamp) this.

(** The [active-leaf-change] handler.  [e] is the view of the leaf the
    host passes, or [None] when it passes [null]; the view is one of
    the workspace's, so it has been through the hooking pass by the time
    it is restyled. *)
Definition onActiveLeafChange (e : option View) : M unit := fun this =>
  let w := ensureLeavesHooked this in
  match e with
  | None => (Throw TypeError, w)
  | Some view => updateLeafViewStyle (ensureHooked view) w
  end.


(** [privateDirs.split(",")], the list [updatePrivateDirsEl] turns into
    one group of style rules per entry. *)
Fixpoint split_commas (s : string) : list string :=
  match s with
  | EmptyString => [EmptyString]
  | String c rest =>
      if String.eqb (String c EmptyString) ","
      then EmptyString :: split_commas rest
      else match split_commas rest with
           | [] => [String c EmptyString]
           | h :: t => String c h :: t
           end
  end.

(** [parts.join(",")]. *)
Fixpoint join_commas (parts : list string) : string :=
  match parts with
  | [] => EmptyString
  | [p] => p
  | p :: rest => p +:+ "," +:+ join_commas rest
  end.

(** What the idle monitor sees: ticks of its interval and user
    activity, each with its time. *)
Inductive IdleEvent : Type :=
  | Tick (now : float)
  | Activity (timeStamp : float).

Definition idle_step (w : World) (ev : IdleEvent) : World :=
  match ev with
  | Tick now => (checkIdleTimeout now w).2
  | Activity t => onActivity t w
  end.

(** The state after a run of ticks and activity, oldest first. *)
Definition idle_run (evs : list IdleEvent) (w : World) : World :=
  fold_left idle_step evs w.

(** ** Vocabulary of the statements *)

(** The entries of the properties' tags when they can be filtered: none
    when the key is missing, the items when the value is a list, and
    [None] when the value is anything else. *)
Definition tag_entries (fm : FrontMatterCache) : option (list Yaml) :=
  match fm_tags fm with
  | None => Some []
  | Some (YList items) => Some items
  | Some _ => None
  end.

(** The containers a restyling pass over [ls] pushes onto [revealed]:
    those of the panels decided to be revealed, in order, up to the
    first panel whose decision throws. *)
Fixpoint newly_revealed (this : World) (ls : list View) : list ElemId :=
  match ls with
  | [] => []
  | v :: rest =>
      match shouldRevealLeaf this v with
      | Return true => containerEl v :: newly_revealed this rest
      | Return false => newly_revealed this rest
      | Throw _ => []
      end
  end.

(** Whether a level reveals a panel that the per-document rules do not
    concern. *)
Definition level_reveals (l : Level) : bool :=
  match l with
  | HidePrivate | RevealAll => true
  | HideAll | RevealHeadlines => false
  end.

(** The kind class a container gets at level [l]. *)
Definition kind_class (l : Level) (view : View) : string :=
  if isMarkdownFileInfoView view && editor view
  then if Level_eqb l RevealHeadlines
       then CssClass.IsMdViewHeadlinesOnly else CssClass.IsMdView
  else CssClass.IsNonMdView.

(** Whether the reveal class sits on a container after it has been
    restyled: as decided, or as it was when the decision threw. *)
Definition marked_revealed (before : bool) (decision : Outcome bool) : bool :=
  match decision with
  | Return b => b
  | Throw _ => before
  end.

(** The class the document body carries for a level; none for
    [HidePrivate]. *)
Definition level_class (l : Level) : option string :=
  match l with
  | HideAll => Some CssClass.BlurAll
  | RevealAll => Some CssClass.RevealAll
  | RevealHeadlines => Some CssClass.RevealHeadlines
  | HidePrivate => None
  end.

(** The three classes that say what kind of panel a container holds. *)
Definition kind_classes : list string :=
  [CssClass.IsMdView; CssClass.IsNonMdView; CssClass.IsMdViewHeadlinesOnly].

(** The five classes [removeAllClasses] takes off the document body. *)
Definition global_classes : list string :=
  [CssClass.BlurAll; CssClass.RevealOnHover; CssClass.RevealAll;
   CssClass.RevealUnderCaret; CssClass.RevealHeadlines].

(** Two states that differ at most in class lists, [revealed], the
    body's classes and pending timeouts. *)
Definition same_inputs (w w' : World) : Prop :=
  currentLevel w' = currentLevel w
  /\ settings w' = settings w
  /\ metadataCache w' = metadataCache w
  /\ leaves w' = leaves w
  /\ lastEventTime w' = lastEventTime w.

Module PassSample.
(** Level [HideAll] on show (the body carries the blur-all class), two
    open panels: one on a note with tags-free properties, one on a note
    without a properties block. *)
Definition world : World :=
  set_body {[CssClass.BlurAll]}
    (set_currentLevel HideAll
       (set_leaves [Sample.panel 1 "work/notes"; Sample.panel 2 "journal"]
          (Sample.world HideAll (Sample.cache Sample.no_frontmatter)))).

(** A panel that is no file panel at all, such as a graph or search
    panel. *)
Definition side_panel : View := {|
  containerEl := 9;
  own_file := None;
  editor := false;
  own_setState := None;
  proto_setState := HostSetState 0;
|}.

(** The same two panels with readable metadata, one of them in a
    private directory, and a side panel. *)
Definition desk : World :=
  set_leaves [Sample.panel 1 "work/notes"; Sample.panel 2 "therapy"; side_panel]
    (Sample.world HidePrivate (Sample.cache Sample.untagged)).

(** Settings with the marker switched off. *)
Definition no_marker : PrivacyGlassesSettings := {|
  blurOnStartup := HidePrivate;
  blurLevel := three_tenths;
  blurOnIdleTimeoutSeconds := 5;
  hoverToReveal := true;
  revealUnderCaret := false;
  privateDirs := "finance,therapy";
  privateNoteMarker := "";
|}.
End PassSample.

Module SwitchSample.
(** A host whose switch operation opens one more panel while its
    promise is pending, and then settles as [fate] says. *)
Definition host (fate : Settlement) (impl : nat) (w : World) : Call World :=
  {| result := Return (Thenable fate);
     on_return := w;
     pending := fun w' => set_leaves (leaves w' ++ [Sample.panel 5 "inbox"]) w';
     reactions := [] |}.

(** The hooked form of the first panel's [setState]. *)
Definition hooked_setState : SetStateFn :=
  HookWrapper (HostSetState 0)
    CallOnBeforeViewStateChange CallOnAfterViewStateChange.

(** Two hooked panels, both revealed. *)
Definition world : World :=
  ensureLeavesHooked (updateLeavesStyle FlickerSample.world).2.

(** A state that has never seen activity with a usable time stamp. *)
Definition asleep : World := set_lastEventTime (Some 0%float) IdleSample.world.
End SwitchSample.

(** * Properties *)

(** ** Visibility policy *)

Lemma truthy_string_true (s : string) : s ≠ "" -> truthy_string s = true.
Proof.
  intros Hs. unfold truthy_string.
  destruct (String.eqb_spec s ""); [contradiction | reflexivity].
Qed.

Lemma noteTags_set_settings (s : PrivacyGlassesSettings) (this : World) (view : View) :
  noteTags (set_settings s this) view = noteTags this view.
Proof. reflexivity. Qed.

(** Under [HidePrivate], once the tag rule has not decided, a panel on
    a file in folder [dir] is revealed exactly when the settings string
    does not contain [dir] as a substring. *)
Lemma directory_rule_is_substring_test (this : World) (view : View)
    (file : TFile) (dir : TFolder) :
  currentLevel this = HidePrivate ->
  own_file view = Some (Some file) ->
  parent file = Some dir ->
  editor view = false \/ privateNoteMarker (settings this) = ""
    \/ noteTags this view = Return [] ->
  shouldRevealLeaf this view
  = Return (negb (contains (privateDirs (settings this)) (path dir))).
Proof.
  intros Hlevel Hfile Hparent Hskip.
  unfold shouldRevealLeaf, isMarkdownFileInfoView, view_file.
  rewrite Hlevel, Hfile. cbn [Level_eqb orb negb].
  destruct Hskip as [Hed | [Hm | Hts]].
  - rewrite Hed. cbn. rewrite Hparent. cbn. by destruct (contains _ _).
  - rewrite Hm. rewrite andb_false_r. cbn. rewrite Hparent. cbn.
    by destruct (contains _ _).
  - destruct (editor view && _ && _).
    + rewrite Hts. cbn. rewrite Hparent. cbn. by destruct (contains _ _).
    + cbn. rewrite Hparent. cbn. by destruct (contains _ _).
Qed.

(** C5: whatever the panel and the settings, everything is revealed
    under [RevealAll] and nothing is revealed under [HideAll] or
    [RevealHeadlines]. *)
Theorem absolute_levels_ignore_the_view (this : World) (view : View) :
  shouldRevealLeaf (set_currentLevel RevealAll this) view = Return true
  /\ shouldRevealLeaf (set_currentLevel HideAll this) view = Return false
  /\ shouldRevealLeaf (set_currentLevel RevealHeadlines this) view = Return false.
Proof. repeat split. Qed.

(** C1: with private directories ["finance,therapy"], an untagged
    editing panel on a note in [therapy/notes] is revealed under
    [HidePrivate], although its folder starts with the private prefix
    [therapy], and one on a note in a folder [fin] is hidden although
    no private directory is a prefix of it; the panel on [therapy]
    itself is hidden and the one on [work/notes] revealed. *)
Theorem private_subfolder_is_revealed :
  let this := Sample.world HidePrivate (Sample.cache Sample.untagged) in
  shouldRevealLeaf this (Sample.panel 1 "therapy/notes") = Return true
  /\ String.prefix "therapy" "therapy/notes" = true
  /\ shouldRevealLeaf this (Sample.panel 1 "fin") = Return false
  /\ shouldRevealLeaf this (Sample.panel 1 "therapy") = Return false
  /\ shouldRevealLeaf this (Sample.panel 1 "work/notes") = Return true.
Proof. repeat split. Qed.

Lemma includes_string (ts : list Yaml) (marker : string) :
  includes ts marker = true <-> YString marker ∈ ts.
Proof.
  unfold includes. rewrite existsb_exists, list_elem_of_In. split.
  - intros (x & Hx & Hs). destruct x; try discriminate Hs.
    cbn in Hs. apply String.eqb_eq in Hs. by subst.
  - intros Hin. exists (YString marker). split; [done |]. cbn.
    apply String.eqb_refl.
Qed.

(** X20: when the tags of an editing panel are collected, with a
    non-empty marker and at least one tag: the panel is revealed under
    [HidePrivate] exactly when the marker is not among the tags, and
    the outcome is the same whatever the private directories are. *)
Lemma tag_rule_overrides_directory_rule (this : World) (view : View)
    (ts : list Yaml) :
  currentLevel this = HidePrivate ->
  isMarkdownFileInfoView view = true ->
  editor view = true ->
  privateNoteMarker (settings this) ≠ "" ->
  noteTags this view = Return ts ->
  ts ≠ [] ->
  (exists b, shouldRevealLeaf this view = Return b
             /\ (b = true <-> YString (privateNoteMarker (settings this)) ∉ ts))
  /\ (forall dirs,
        let s := settings this in
        shouldRevealLeaf
          (set_settings
             {| blurOnStartup := blurOnStartup s; blurLevel := blurLevel s;
                blurOnIdleTimeoutSeconds := blurOnIdleTimeoutSeconds s;
                hoverToReveal := hoverToReveal s;
                revealUnderCaret := revealUnderCaret s;
                privateDirs := dirs;
                privateNoteMarker := privateNoteMarker s |} this) view
        = shouldRevealLeaf this view).
Proof.
  intros Hlevel Hmd Hed Hmarker Hts Hne.
  assert (Hlen : (0 <? length ts)%nat = true).
  { destruct ts; [contradiction | reflexivity]. }
  assert (Heval : forall w,
             currentLevel w = HidePrivate ->
             privateNoteMarker (settings w) = privateNoteMarker (settings this) ->
             noteTags w view = Return ts ->
             shouldRevealLeaf w view
             = Return (negb (includes ts (privateNoteMarker (settings this))))).
  { intros w Hl Hm Hn. unfold shouldRevealLeaf.
    rewrite Hl, Hmd, Hed, Hm. cbn [Level_eqb orb negb andb].
    rewrite (truthy_string_true _ Hmarker). cbn [andb negb].
    destruct (String.eqb_spec (privateNoteMarker (settings this)) "");
      [contradiction |].
    cbn [negb]. rewrite Hn. cbn [obind]. rewrite Hlen. reflexivity. }
  split.
  - eexists. split; [by apply Heval |].
    rewrite negb_true_iff, <- includes_string.
    by destruct (includes ts _).
  - intros dirs s. rewrite !Heval; try done.
Qed.

Lemma tag_rule_overrides_directory_rule_witness :
  let this := Sample.world HidePrivate (Sample.cache Sample.tagged_private) in
  let view := Sample.panel 1 "work/notes" in
  noteTags this view = Return [YString "#private"; YString "x"]
  /\ contains (privateDirs (settings this)) "work/notes" = false
  /\ shouldRevealLeaf this view = Return false
  /\ exists b, shouldRevealLeaf this view = Return b
               /\ (b = true <->
                   YString (privateNoteMarker (settings this))
                     ∉ [YString "#private"; YString "x"]).
Proof.
  repeat split.
  apply (tag_rule_overrides_directory_rule
           (Sample.world HidePrivate (Sample.cache Sample.tagged_private))
           (Sample.panel 1 "work/notes") [YString "#private"; YString "x"]);
    first [reflexivity | discriminate].
Defined.

(** C3: a document panel on a note in [work/notes] that is tagged
    [#private] and [x] in its body and has no properties block does not
    come out hidden under [HidePrivate]: the evaluation throws a
    [TypeError].  So does one whose properties read [tags: private].
    With the tag [x] in a list under the properties instead, the panel
    is hidden. *)
Theorem body_tagged_note_without_properties_raises :
  let view := Sample.panel 1 "work/notes" in
  shouldRevealLeaf (Sample.world HidePrivate (Sample.cache Sample.body_tagged)) view
  = Throw TypeError
  /\ shouldRevealLeaf (Sample.world HidePrivate (Sample.cache Sample.scalar_tag)) view
     = Throw TypeError
  /\ shouldRevealLeaf (Sample.world HidePrivate (Sample.cache Sample.tagged_private)) view
     = Return false.
Proof. repeat split. Qed.

(** With an editor and a non-empty marker the metadata is read, and a
    missing cache entry or a missing frontmatter object makes the read
    throw, whatever the directory rule would have said. *)
Lemma missing_metadata_throws (this : World) (view : View) :
  currentLevel this = HidePrivate ->
  isMarkdownFileInfoView view = true ->
  editor view = true ->
  privateNoteMarker (settings this) ≠ "" ->
  (getFileCache (metadataCache this) (view_file view) = Return None
   \/ exists c, getFileCache (metadataCache this) (view_file view) = Return (Some c)
                /\ frontmatter c = None) ->
  shouldRevealLeaf this view = Throw TypeError.
Proof.
  intros Hlevel Hmd Hed Hmarker Hcache.
  unfold shouldRevealLeaf.
  rewrite Hlevel, Hmd, Hed. cbn [Level_eqb orb negb andb].
  rewrite (truthy_string_true _ Hmarker). cbn [andb].
  destruct (String.eqb_spec (privateNoteMarker (settings this)) "");
    [contradiction |].
  cbn [negb]. unfold noteTags.
  destruct Hcache as [Hnone | (c & Hsome & Hfm)].
  - rewrite Hnone. reflexivity.
  - rewrite Hsome. cbn. destruct (tags c) as [ts |]; cbn; rewrite Hfm; reflexivity.
Qed.

(** C4: an editing panel on a note in [work/notes] whose metadata has
    no frontmatter object, or for which the cache has no entry, makes
    the evaluation under [HidePrivate] throw a [TypeError]; with a
    frontmatter object that has no tags the same panel is revealed. *)
Theorem missing_frontmatter_raises :
  let view := Sample.panel 1 "work/notes" in
  shouldRevealLeaf (Sample.world HidePrivate (Sample.cache Sample.no_frontmatter)) view
  = Throw TypeError
  /\ shouldRevealLeaf (Sample.world HidePrivate (Sample.cache None)) view
     = Throw TypeError
  /\ shouldRevealLeaf (Sample.world HidePrivate (Sample.cache Sample.untagged)) view
     = Return true.
Proof. repeat split. Qed.

(** A panel without a file is hidden under [HidePrivate] whenever the
    tag rule is not entered. *)
Lemma no_file_hidden_when_tag_rule_skipped (this : World) (view : View) :
  currentLevel this = HidePrivate ->
  own_file view = Some None ->
  editor view = false \/ privateNoteMarker (settings this) = "" ->
  shouldRevealLeaf this view = Return false.
Proof.
  intros Hlevel Hfile Hskip.
  unfold shouldRevealLeaf, isMarkdownFileInfoView, view_file.
  rewrite Hlevel, Hfile. cbn [Level_eqb orb negb].
  destruct Hskip as [Hed | Hm].
  - rewrite Hed. reflexivity.
  - rewrite Hm. rewrite andb_false_r. reflexivity.
Qed.

(** A panel without a file, with an editor and a non-empty marker: the
    metadata lookup is made with no file, and unless the host answers
    it with an object the evaluation throws. *)
Lemma no_file_with_editor_throws (this : World) (view : View) :
  currentLevel this = HidePrivate ->
  own_file view = Some None ->
  editor view = true ->
  privateNoteMarker (settings this) ≠ "" ->
  (getFileCache (metadataCache this) None = Return None
   \/ exists e, getFileCache (metadataCache this) None = Throw e) ->
  exists e, shouldRevealLeaf this view = Throw e.
Proof.
  intros Hlevel Hfile Hed Hmarker Hhost.
  unfold shouldRevealLeaf, isMarkdownFileInfoView, noteTags, view_file.
  rewrite Hlevel, Hfile, Hed. cbn [Level_eqb orb negb andb].
  rewrite (truthy_string_true _ Hmarker). cbn [andb].
  destruct (String.eqb_spec (privateNoteMarker (settings this)) "");
    [contradiction |].
  cbn [negb].
  destruct Hhost as [Hnull | [e He]].
  - rewrite Hnull. by exists TypeError.
  - rewrite He. by exists e.
Qed.

(** C9: an editing panel whose [file] is [null], evaluated under
    [HidePrivate] with the marker ["#private"], does not come out
    hidden: the evaluation throws, whether the host's lookup fails on
    the missing file or answers [null].  Without an editor the same
    panel is hidden. *)
Theorem panel_without_file_raises :
  shouldRevealLeaf (Sample.world HidePrivate (Sample.cache Sample.untagged))
                   (Sample.blank 1 true) = Throw TypeError
  /\ shouldRevealLeaf (Sample.world HidePrivate (Sample.lenient_cache Sample.untagged))
                      (Sample.blank 1 true) = Throw TypeError
  /\ shouldRevealLeaf (Sample.world HidePrivate (Sample.cache Sample.untagged))
                      (Sample.blank 1 false) = Return false.
Proof. repeat split. Qed.

(** C10: for a file panel without an editor, the outcome under
    [HidePrivate] is that of the directory test alone: hidden when
    there is no file, otherwise revealed exactly when the settings
    string does not contain the folder; replacing the metadata cache
    and the marker by any others changes nothing. *)
Theorem tag_rule_needs_an_editor (this : World) (view : View) :
  currentLevel this = HidePrivate ->
  isMarkdownFileInfoView view = true ->
  editor view = false ->
  shouldRevealLeaf this view
  = match view_file view with
    | None => Return false
    | Some file =>
        match parent file with
        | None => Throw TypeError
        | Some dir =>
            Return (negb (contains (privateDirs (settings this)) (path dir)))
        end
    end
  /\ (forall (m : MetadataCache) (marker : string),
        let s := settings this in
        shouldRevealLeaf
          (set_metadataCache m
             (set_settings
                {| blurOnStartup := blurOnStartup s; blurLevel := blurLevel s;
                   blurOnIdleTimeoutSeconds := blurOnIdleTimeoutSeconds s;
                   hoverToReveal := hoverToReveal s;
                   revealUnderCaret := revealUnderCaret s;
                   privateDirs := privateDirs s;
                   privateNoteMarker := marker |} this)) view
        = shouldRevealLeaf this view).
Proof.
  intros Hlevel Hmd Hed.
  assert (Heval : forall w,
             currentLevel w = HidePrivate ->
             shouldRevealLeaf w view
             = match view_file view with
               | None => Return false
               | Some file =>
                   match parent file with
                   | None => Throw TypeError
                   | Some dir =>
                       Return (negb (contains (privateDirs (settings w)) (path dir)))
                   end
               end).
  { intros w Hl. unfold shouldRevealLeaf.
    rewrite Hl, Hmd, Hed. cbn [Level_eqb orb negb andb obind].
    destruct (view_file view) as [file |]; [| reflexivity].
    destruct (parent file) as [dir |]; [| reflexivity].
    cbn. by destruct (contains _ _). }
  split.
  - by apply Heval.
  - intros m marker s. rewrite !Heval; done.
Qed.

Lemma tag_rule_needs_an_editor_witness :
  let this := Sample.world HidePrivate (Sample.cache Sample.tagged_private) in
  let view := Sample.viewer 1 "work/notes" in
  noteTags this view = Return [YString "#private"; YString "x"]
  /\ shouldRevealLeaf this view = Return true.
Proof.
  split; [reflexivity |].
  apply (tag_rule_needs_an_editor
           (Sample.world HidePrivate (Sample.cache Sample.tagged_private))
           (Sample.viewer 1 "work/notes"));
    reflexivity.
Defined.

(** ** Idle monitor *)

Section Frame.
(** Restyling touches class lists and [revealed] only. *)

Lemma updateLeafViewStyle_level (view : View) (this : World) :
  currentLevel (updateLeafViewStyle view this).2 = currentLevel this.
Proof.
  unfold updateLeafViewStyle.
  destruct (isMarkdownFileInfoView view && editor view);
    cbn [andb]; [destruct (Level_eqb _ _) |];
    destruct (shouldRevealLeaf _ view) as [[] | e]; reflexivity.
Qed.

Lemma iterateAllLeaves_level (ls : list View) (this : World) :
  currentLevel (iterateAllLeaves updateLeafViewStyle ls this).2
  = currentLevel this.
Proof.
  revert this. induction ls as [| v rest IH]; intros this; [reflexivity |].
  cbn [iterateAllLeaves].
  pose proof (updateLeafViewStyle_level v this) as Hv.
  destruct (updateLeafViewStyle v this) as [[[] | e] w']; cbn in Hv |- *.
  - rewrite IH. exact Hv.
  - exact Hv.
Qed.

Lemma updateGlobalRevealStyle_level (this : World) :
  currentLevel (updateGlobalRevealStyle this) = currentLevel this.
Proof.
  unfold updateGlobalRevealStyle.
  destruct (currentLevel this) eqn:Hl; cbn; rewrite Hl; cbn;
    destruct (hoverToReveal (settings this)); cbn;
    destruct (revealUnderCaret (settings this)); cbn; exact Hl.
Qed.

Lemma updateLeavesAndGlobalReveals_level (this : World) :
  currentLevel (updateLeavesAndGlobalReveals this).2 = currentLevel this.
Proof.
  unfold updateLeavesAndGlobalReveals, updateLeavesStyle.
  pose proof (iterateAllLeaves_level (leaves this) this) as Hl.
  destruct (iterateAllLeaves _ _ _) as [[[] | e] w]; cbn in Hl |- *.
  - by rewrite updateGlobalRevealStyle_level.
  - exact Hl.
Qed.
End Frame.

(** Under [HideAll] no restyling pass can throw: the decision is taken
    before any metadata is read. *)
Lemma updateLeafViewStyle_HideAll (view : View) (this : World) :
  currentLevel this = HideAll ->
  (updateLeafViewStyle view this).1 = Return tt.
Proof.
  intros Hl. unfold updateLeafViewStyle.
  assert (Hs : forall w, currentLevel w = HideAll ->
                         shouldRevealLeaf w view = Return false).
  { intros w Hw. unfold shouldRevealLeaf. by rewrite Hw. }
  destruct (isMarkdownFileInfoView view && editor view);
    cbn [andb]; [destruct (Level_eqb _ _) |]; by rewrite Hs.
Qed.

Lemma iterateAllLeaves_HideAll (ls : list View) (this : World) :
  currentLevel this = HideAll ->
  (iterateAllLeaves updateLeafViewStyle ls this).1 = Return tt.
Proof.
  revert this. induction ls as [| v rest IH]; intros this Hl; [reflexivity |].
  cbn [iterateAllLeaves].
  pose proof (updateLeafViewStyle_HideAll v this Hl) as Hok.
  pose proof (updateLeafViewStyle_level v this) as Hv.
  destruct (updateLeafViewStyle v this) as [[[] | e] w']; cbn in Hok, Hv |- *.
  - apply IH. by rewrite Hv.
  - discriminate.
Qed.

Lemma updateLeavesAndGlobalReveals_HideAll (this : World) :
  currentLevel this = HideAll ->
  (updateLeavesAndGlobalReveals this).1 = Return tt.
Proof.
  intros Hl. unfold updateLeavesAndGlobalReveals, updateLeavesStyle.
  pose proof (iterateAllLeaves_HideAll (leaves this) this Hl) as Hok.
  destruct (iterateAllLeaves _ _ _) as [[[] | e] w]; cbn in Hok |- *;
    [reflexivity | discriminate].
Qed.

(** With a negative timeout the tick changes nothing at all. *)
Lemma negative_timeout_disables_the_tick (now : float) (this : World) :
  (blurOnIdleTimeoutSeconds (settings this) <? 0)%float = true ->
  checkIdleTimeout now this = (Return tt, this).
Proof. intros Hneg. unfold checkIdleTimeout. by rewrite Hneg. Qed.

(** Before any activity has been recorded the tick changes nothing. *)
Lemma no_activity_no_tick (now : float) (this : World) :
  truthy_number (lastEventTime this) = false ->
  checkIdleTimeout now this = (Return tt, this).
Proof.
  intros Hfalsy. unfold checkIdleTimeout. rewrite Hfalsy.
  destruct (_ <? 0)%float; [reflexivity |].
  by destruct (Level_eqb _ _).
Qed.

Lemma Level_eqb_eq (a b : Level) : Level_eqb a b = true <-> a = b.
Proof. destruct a, b; cbn; split; first [done | discriminate]. Qed.

(** C6, as the code has it: a tick at time [now] moves the level to
    [HideAll] exactly when the timeout is not negative, the level is
    not [HideAll] already, an activity time [last] is recorded that is
    truthy (neither zero nor [NaN]), and the elapsed seconds, computed
    in double precision as [(now - last) / 1000], reach the timeout,
    the boundary included; a negative timeout leaves everything as it
    was; the tick never throws and never moves the level anywhere
    else. *)
Theorem idle_tick_locks_at_the_timeout (now : float) (this : World) :
  let timeout := blurOnIdleTimeoutSeconds (settings this) in
  let this' := (checkIdleTimeout now this).2 in
  ((currentLevel this ≠ HideAll /\ currentLevel this' = HideAll)
   <-> (timeout <? 0)%float = false
       /\ currentLevel this ≠ HideAll
       /\ exists last,
            lastEventTime this = Some last
            /\ truthy_float last = true
            /\ (timeout <=? (now - last) / 1000)%float = true)
  /\ ((timeout <? 0)%float = true -> checkIdleTimeout now this = (Return tt, this))
  /\ (checkIdleTimeout now this).1 = Return tt
  /\ (currentLevel this' = currentLevel this \/ currentLevel this' = HideAll).
Proof.
  intros timeout this'.
  assert (Hcases :
            (checkIdleTimeout now this).1 = Return tt
            /\ (((timeout <? 0)%float = false
                 /\ currentLevel this ≠ HideAll
                 /\ (exists last,
                       lastEventTime this = Some last
                       /\ truthy_float last = true
                       /\ (timeout <=? (now - last) / 1000)%float = true)
                 /\ currentLevel this' = HideAll)
                \/ (~ ((timeout <? 0)%float = false
                       /\ currentLevel this ≠ HideAll
                       /\ exists last,
                            lastEventTime this = Some last
                            /\ truthy_float last = true
                            /\ (timeout <=? (now - last) / 1000)%float = true)
                    /\ this' = this))).
  { subst this'. unfold checkIdleTimeout. fold timeout.
    destruct (timeout <? 0)%float eqn:Hneg.
    { split; [done |]. right. split; [| done]. by intros [? _]. }
    destruct (Level_eqb (currentLevel this) HideAll) eqn:Hlv.
    { apply Level_eqb_eq in Hlv. split; [done |]. right. split; [| done].
      by intros (_ & ? & _). }
    assert (Hne : currentLevel this ≠ HideAll).
    { intros Heq. apply Level_eqb_eq in Heq. congruence. }
    destruct (lastEventTime this) as [last |] eqn:Hlast; cbn [truthy_number negb].
    2: { split; [done |]. right. split; [| done].
         by intros (_ & _ & last & ? & _). }
    destruct (truthy_float last) eqn:Htruthy; cbn [negb].
    2: { split; [done |]. right. split; [| done].
         intros (_ & _ & last' & [= <-] & ? & _). congruence. }
    destruct (timeout <=? (now - last) / 1000)%float eqn:Hel.
    2: { split; [done |]. right. split; [| done].
         intros (_ & _ & last' & [= <-] & _ & ?). congruence. }
    split; [by apply updateLeavesAndGlobalReveals_HideAll |].
    left. split; [done |]. split; [done |]. split; [by exists last |].
    by rewrite updateLeavesAndGlobalReveals_level. }
  destruct Hcases as [Hok Hcases].
  split; [split |].
  - intros [Hne Hget].
    destruct Hcases as [(H0 & _ & Hex & _) | [_ Hsame]]; [done |].
    rewrite Hsame in Hget. contradiction.
  - intros Hall. split; [by destruct Hall as (_ & ? & _) |].
    destruct Hcases as [(_ & _ & _ & Hget) | [Hnot _]]; [done | contradiction].
  - split; [apply negative_timeout_disables_the_tick |].
    split; [exact Hok |].
    destruct Hcases as [(_ & _ & _ & Hget) | [_ Hsame]]; [by right | left].
    by rewrite Hsame.
Qed.

(** C6, as stated, fails: with timeout 5 at level [RevealAll], a
    recorded activity time of zero and a tick at 6000 ms, the timeout
    is not negative, the level is not [HideAll] and six seconds have
    elapsed, yet the level stays [RevealAll]. *)
Lemma recorded_time_zero_never_locks :
  let this := SwitchSample.asleep in
  lastEventTime this = Some 0%float
  /\ (blurOnIdleTimeoutSeconds (settings this) <? 0)%float = false
  /\ currentLevel this = RevealAll
  /\ (blurOnIdleTimeoutSeconds (settings this) <=? (6000 - 0) / 1000)%float = true
  /\ currentLevel (checkIdleTimeout 6000 this).2 = RevealAll.
Proof. repeat split. Qed.

(** Timeout 5 at level [RevealAll], last activity at 1000 ms: a tick
    4000 ms later changes nothing, ticks 5000 ms and 6000 ms later
    lock. *)
Example idle_tick_before_and_at_the_boundary :
  currentLevel (checkIdleTimeout 5000 IdleSample.world).2 = RevealAll
  /\ currentLevel (checkIdleTimeout 6000 IdleSample.world).2 = HideAll
  /\ currentLevel (checkIdleTimeout 7000 IdleSample.world).2 = HideAll.
Proof. repeat split. Qed.

(** The elapsed time is rounded: with the last activity one unit in
    the last place after 1000 ms, a tick at 6000 ms comes less than
    five seconds later and locks all the same. *)
Example idle_tick_rounds_the_elapsed_time :
  let last := next_up 1000 in
  (1000 <? last)%float = true
  /\ ((6000 - last) / 1000 =? 5)%float = true
  /\ currentLevel
       (checkIdleTimeout 6000 (set_lastEventTime (Some last) IdleSample.world)).2
     = HideAll.
Proof. repeat split. Qed.

(** ** Flicker prevention *)

Lemma classList_removeClass (cs : list string) (el el' : ElemId) (w : World) :
  classList (removeClass cs el w) el'
  = if decide (el = el') then classList w el' ∖ list_to_set cs
    else classList w el'.
Proof.
  unfold removeClass, classList at 1. cbn [classes set_classes].
  rewrite lookup_insert. by destruct (decide (el = el')) as [-> |].
Qed.

Lemma classList_addClass (c : string) (el el' : ElemId) (w : World) :
  classList (addClass c el w) el'
  = if decide (el = el') then classList w el' ∪ {[c]} else classList w el'.
Proof.
  unfold addClass, classList at 1. cbn [classes set_classes].
  rewrite lookup_insert. by destruct (decide (el = el')) as [-> |].
Qed.

Lemma unmark_all_revealed (rs : list ElemId) (w : World) :
  let w' := fold_left (fun w r => removeClass [CssClass.Reveal] r w) rs w in
  revealed w' = revealed w
  /\ leaves w' = leaves w
  /\ forall el, classList w' el
                = if decide (el ∈ rs) then classList w el ∖ {[CssClass.Reveal]}
                  else classList w el.
Proof.
  revert w. induction rs as [| r rest IH]; intros w; cbn [fold_left].
  - split; [done |]. split; [done |].
    intros el. destruct (decide (el ∈ [])) as [Hin |]; [| done].
    by apply elem_of_nil in Hin.
  - destruct (IH (removeClass [CssClass.Reveal] r w)) as (Hrev & Hleaves & Hcls).
    split; [by rewrite Hrev |]. split; [by rewrite Hleaves |].
    intros el. rewrite Hcls, classList_removeClass.
    assert (Hone : list_to_set [CssClass.Reveal] = ({[CssClass.Reveal]} : gset string)).
    { apply set_eq. intros c.
      rewrite elem_of_list_to_set, list_elem_of_singleton, elem_of_singleton.
      reflexivity. }
    rewrite Hone.
    destruct (decide (r = el)) as [-> | Hne].
    + rewrite (decide_True (P := el ∈ el :: rest)) by apply list_elem_of_here.
      destruct (decide (el ∈ rest)); [| reflexivity].
      apply set_eq. intros c. rewrite !elem_of_difference. tauto.
    + destruct (decide (el ∈ rest)) as [Hin | Hout].
      * rewrite (decide_True (P := el ∈ r :: rest)); [reflexivity |].
        by apply list_elem_of_further.
      * rewrite (decide_False (P := el ∈ r :: rest)); [reflexivity |].
        rewrite elem_of_cons. intros [-> | Hin]; contradiction.
Qed.

Lemma updateLeafViewStyle_revealed (view : View) (this : World) :
  exists added, revealed (updateLeafViewStyle view this).2 = revealed this ++ added.
Proof.
  unfold updateLeafViewStyle.
  destruct (isMarkdownFileInfoView view && editor view);
    cbn [andb]; [destruct (Level_eqb _ _) |];
    destruct (shouldRevealLeaf _ view) as [[] | e]; cbn;
    first [by exists [containerEl view] | exists []; by rewrite app_nil_r].
Qed.

Lemma iterateAllLeaves_revealed (ls : list View) (this : World) :
  exists added,
    revealed (iterateAllLeaves updateLeafViewStyle ls this).2
    = revealed this ++ added.
Proof.
  revert this. induction ls as [| v rest IH]; intros this; cbn [iterateAllLeaves].
  - exists []. by rewrite app_nil_r.
  - destruct (updateLeafViewStyle_revealed v this) as [a1 Ha1].
    destruct (updateLeafViewStyle v this) as [[[] | e] w']; cbn in Ha1 |- *.
    + destruct (IH w') as [a2 Ha2]. exists (a1 ++ a2).
      by rewrite Ha2, Ha1, app_assoc.
    + by exists a1.
Qed.

(** Running the wrapper is running the before-callback and then the
    rest of the wrapper from the state it leaves. *)
Lemma wrapper_runs_before_first {W : Type} (before after : W -> W)
    (original : W -> Call W) (w : W) :
  wrapper before after original w = wrapper (fun x => x) after original (before w).
Proof. reflexivity. Qed.

(** ** Hook installation *)

Lemma isHooked_callable (view : View) :
  isHooked view = true <-> exists f, own_setState view = Some (Callable f).
Proof.
  unfold isHooked, get_setState.
  destruct (own_setState view) as [[| f] |]; cbn; split;
    first [discriminate | by intros [? ?] | by exists f | done].
Qed.

Lemma ensureHooked_hooked (view : View) :
  isHooked view = true -> ensureHooked view = view.
Proof. intros Hh. unfold ensureHooked. by rewrite Hh. Qed.

Lemma hookViewStateChanged_twice (view : View) (before after : Callback) :
  hookViewStateChanged (hookViewStateChanged view before after) before after
  = hookViewStateChanged view before after.
Proof. reflexivity. Qed.

Lemma ensureHooked_probes_hooked (view : View) :
  isHooked (ensureHooked view) = true.
Proof.
  unfold ensureHooked. destruct (isHooked view) eqn:Hh; [exact Hh | reflexivity].
Qed.

(** C8, as the code has it: the probe answers whether the panel has an
    own callable [setState].  Installing on a panel that probes as
    hooked returns it untouched, whether its own [setState] is this
    plugin's wrapper or any other function.  On a panel that does not
    probe as hooked, installing puts the wrapper directly around the
    prototype's operation, one layer more than the prototype has.
    After a hooking pass every panel probes as hooked and a second pass
    changes nothing; hooking twice by hand gives what hooking once
    gives. *)
Theorem hook_is_installed_once (this : World) :
  let once := ensureLeavesHooked this in
  leaves once = map ensureHooked (leaves this)
  /\ Forall (fun v => isHooked v = true) (leaves once)
  /\ ensureLeavesHooked once = once
  /\ (forall v, isHooked v = true -> ensureHooked v = v)
  /\ (forall v, isHooked v = false ->
        get_setState (ensureHooked v) = installed_wrapper v
        /\ view_layers (ensureHooked v) = S (layers (proto_setState v)))
  /\ (forall v, isHooked v = true <-> exists f, own_setState v = Some (Callable f))
  /\ (forall v b a,
        hookViewStateChanged (hookViewStateChanged v b a) b a
        = hookViewStateChanged v b a).
Proof.
  intros once.
  assert (Hall : Forall (fun v => isHooked v = true) (leaves once)).
  { subst once. cbn. apply Forall_forall.
    intros v (u & -> & _)%list_elem_of_fmap. apply ensureHooked_probes_hooked. }
  split; [reflexivity |]. split; [exact Hall |].
  split; [| split; [| split; [| split]]].
  - subst once. unfold ensureLeavesHooked at 1.
    assert (Hmap : map ensureHooked (leaves (ensureLeavesHooked this))
                   = leaves (ensureLeavesHooked this)).
    { induction Hall as [| v rest Hh _ IH]; cbn [map]; [reflexivity |].
      by rewrite IH, ensureHooked_hooked. }
    rewrite Hmap. reflexivity.
  - apply ensureHooked_hooked.
  - intros v Hh. unfold ensureHooked. rewrite Hh. by split.
  - apply isHooked_callable.
  - reflexivity.
Qed.

(** C8, as stated, fails: a panel with an own callable [setState] that
    is not this plugin's wrapper probes as hooked, so the hooking pass
    leaves it without any wrapper, next to a panel that gets one. *)
Lemma foreign_setState_is_never_wrapped :
  let once := ensureLeavesHooked HookSample.mixed in
  map isHooked (leaves HookSample.mixed) = [false; true]
  /\ map view_layers (leaves once) = [1; 0]%nat
  /\ ensureHooked HookSample.foreign_panel = HookSample.foreign_panel.
Proof. repeat split. Qed.

(** Three panels as the host makes them, before and after a pass. *)
Example hooking_pass_on_fresh_panels :
  let once := ensureLeavesHooked HookSample.world in
  map view_layers (leaves HookSample.world) = [0; 0; 0]%nat
  /\ map view_layers (leaves once) = [1; 1; 1]%nat
  /\ ensureLeavesHooked once = once.
Proof. repeat split. Qed.

(** ** Failure of the underlying switch *)

Lemma after_count_log (e : Event) (t : list Event) :
  after_count (log e t) = (after_count t + if is_after e then 1 else 0)%nat.
Proof.
  unfold after_count, log. rewrite List.filter_app, length_app. cbn [List.filter].
  by destruct (is_after e).
Qed.

(** What the wrapper adds to a call of the underlying operation,
    for any state and any pair of callbacks. *)
Lemma wrapper_settles {W : Type} (before after : W -> W)
    (original : W -> Call W) (w : W) :
  let inner := original (before w) in
  let outer := wrapper before after original w in
  match verdict (result inner) with
  | Succeeded =>
      result outer = result inner /\ settle outer = after (settle inner)
  | Failed =>
      result outer = result inner /\ settle outer = settle inner
  | NothingReturned =>
      result outer = Throw TypeError /\ settle outer = on_return inner
  end.
Proof.
  intros inner outer. subst outer. unfold wrapper. fold inner.
  destruct (result inner) as [[| | [| reason]] | e] eqn:Hres; cbn [verdict].
  - by cbn.
  - unfold settle. cbn. by rewrite Hres.
  - unfold settle. cbn. rewrite Hres. by rewrite fold_left_app.
  - unfold settle. cbn. by rewrite Hres.
  - by rewrite Hres.
Qed.

(** C2, as the code has it: when the underlying operation throws, or
    returns a promise or any other value that [then] can be read from,
    what it threw or returned reaches the caller of the wrapper
    unchanged; when it succeeds, at once or by fulfilling its promise,
    the after-callback has run exactly once by the time the call has
    settled; when it throws or its promise rejects, the after-callback
    does not run. *)
Theorem after_callback_fires_on_success_only
    (original : list Event -> Call (list Event)) (t : list Event) :
  let inner := original (log EvBefore t) in
  let outer := traced_wrapper original t in
  (verdict (result inner) = Succeeded ->
     result outer = result inner
     /\ settle outer = log EvAfter (settle inner)
     /\ after_count (settle outer) = S (after_count (settle inner)))
  /\ (verdict (result inner) = Failed ->
       result outer = result inner
       /\ settle outer = settle inner
       /\ after_count (settle outer) = after_count (settle inner)).
Proof.
  intros inner outer.
  pose proof (wrapper_settles (log EvBefore) (log EvAfter) original t) as H.
  cbv zeta in H. fold inner in H. fold (traced_wrapper original) in H.
  fold outer in H.
  split; intros Hv; rewrite Hv in H; destruct H as [Hres Hset].
  - split; [exact Hres |]. split; [exact Hset |].
    rewrite Hset, after_count_log. cbn. lia.
  - split; [exact Hres |]. split; [exact Hset |]. by rewrite Hset.
Qed.

(** C2, as stated, fails: when the underlying switch returns a promise
    that rejects, or throws, the caller gets the failure but the
    after-callback has not run once the call has settled. *)
Lemma after_callback_skipped_on_failure :
  let rejected :=
    traced_wrapper (traced_switch (Return (Thenable (Rejected (HostError 1))))) [] in
  let thrown := traced_wrapper (traced_switch (Throw (HostError 1))) [] in
  result rejected = Return (Thenable (Rejected (HostError 1)))
  /\ settle rejected = [EvBefore; EvSwitch; EvSettled]
  /\ after_count (settle rejected) = 0%nat
  /\ result thrown = Throw (HostError 1)
  /\ settle thrown = [EvBefore; EvSwitch]
  /\ after_count (settle thrown) = 0%nat.
Proof. repeat split. Qed.

(** A switch that succeeds, by a promise and at once. *)
Example after_callback_on_success :
  settle (traced_wrapper (traced_switch (Return (Thenable Fulfilled))) [])
  = [EvBefore; EvSwitch; EvSettled; EvAfter]
  /\ settle (traced_wrapper (traced_switch (Return Plain)) [])
     = [EvBefore; EvSwitch; EvAfter].
Proof. split; reflexivity. Qed.

(** On the plugin's own state: a failing switch of a hooked panel
    schedules no restyling, a successful one schedules exactly one. *)
Lemma hooked_switch_schedules_restyling
    (host : nat -> World -> Call World) (original : SetStateFn) (this : World) :
  let inner := call_setState host original (onBeforeViewStateChange this) in
  let outer := call_setState host
                 (HookWrapper original CallOnBeforeViewStateChange
                              CallOnAfterViewStateChange) this in
  match verdict (result inner) with
  | Succeeded =>
      timeouts (settle outer)
      = timeouts (settle inner) ++ [(200%nat, TaskUpdateLeavesStyle)]
  | Failed => settle outer = settle inner
  | NothingReturned => result outer = Throw TypeError
  end.
Proof.
  intros inner outer.
  pose proof (wrapper_settles onBeforeViewStateChange onAfterViewStateChange
                (call_setState host original) this) as H.
  cbv zeta in H. fold inner in H.
  change (wrapper onBeforeViewStateChange onAfterViewStateChange
            (call_setState host original) this) with outer in H.
  destruct (verdict (result inner)).
  - destruct H as [_ ->]. reflexivity.
  - by destruct H.
  - by destruct H.
Qed.

(** * Further properties *)

#[local] Set Warnings "-clear-no-such-hyp".

(** ** Substrings and the private-directory test *)

Lemma prefix_append (t s : string) :
  String.prefix t s = true <-> exists post, s = t +:+ post.
Proof.
  revert s. induction t as [| a t IH]; intros s.
  - split; [intros _; by exists s | intros _; by destruct s].
  - destruct s as [| b s]; cbn.
    + split; [discriminate | intros [post Hpost]; discriminate Hpost].
    + destruct (Ascii.ascii_dec a b) as [-> | Hne].
      * rewrite IH. split; intros [post Hpost]; exists post.
        -- by rewrite Hpost.
        -- by injection Hpost.
      * split; [discriminate | intros [post Hpost]].
        injection Hpost as Hab _. congruence.
Qed.

Lemma contains_occurrence (s t : string) :
  contains s t = true <-> exists pre post, s = pre +:+ t +:+ post.
Proof.
  induction s as [| c s IH]; cbn [contains].
  - rewrite orb_false_r, prefix_append. split.
    + intros [post Hpost]. exists "", post. exact Hpost.
    + intros (pre & post & Heq). destruct pre as [| a pre]; [| discriminate Heq].
      exists post. exact Heq.
  - rewrite orb_true_iff, prefix_append, IH. split.
    + intros [[post Hpost] | (pre & post & Heq)].
      * exists "", post. exact Hpost.
      * exists (String c pre), post. by rewrite Heq.
    + intros (pre & post & Heq). destruct pre as [| a pre].
      * left. exists post. exact Heq.
      * right. exists pre, post. by injection Heq.
Qed.

Lemma split_commas_head (s : string) :
  exists h t, split_commas s = h :: t /\ String.prefix h s = true.
Proof.
  induction s as [| c s (h & t & Hsplit & Hpre)]; cbn [split_commas].
  - by exists "", [].
  - destruct (String.eqb _ ",").
    + by exists "", (split_commas s).
    + rewrite Hsplit. exists (String c h), t. split; [done |].
      cbn. by destruct (Ascii.ascii_dec c c).
Qed.

Lemma split_commas_entries_occur (s d : string) :
  d ∈ split_commas s -> contains s d = true.
Proof.
  revert d. induction s as [| c s IH]; intros d; cbn [split_commas contains].
  - intros Hd%list_elem_of_singleton. by subst d.
  - destruct (split_commas_head s) as (h & t & Hsplit & Hpre).
    destruct (String.eqb _ ",").
    + intros [-> | Hd]%elem_of_cons; [done |].
      rewrite (IH _ Hd). apply orb_true_r.
    + rewrite Hsplit. intros [-> | Hd]%elem_of_cons.
      * cbn. destruct (Ascii.ascii_dec c c); [| done]. by rewrite Hpre.
      * rewrite (IH d); [apply orb_true_r |]. rewrite Hsplit. by right.
Qed.

(** Splitting at the commas and joining with commas gives the string
    back: no entry is trimmed, dropped or merged. *)
Lemma join_split_commas (s : string) : join_commas (split_commas s) = s.
Proof.
  induction s as [| c s IH]; [reflexivity |].
  cbn [split_commas].
  destruct (split_commas_head s) as (h & t & Hsplit & _).
  destruct (String.eqb_spec (String c EmptyString) ",") as [Heq | Hne].
  - injection Heq as ->. rewrite Hsplit in IH |- *. cbn [join_commas].
    cbn. by rewrite <- IH.
  - rewrite Hsplit in IH |- *. destruct t as [| p t]; cbn in IH |- *.
    + by rewrite IH.
    + by rewrite <- IH.
Qed.

(** X1: under [HidePrivate], a panel on a file in folder [dir] for
    which the tag rule does not decide (no editor, an empty marker, or
    no tags collected) gets a decision without any exception, and it is
    hidden exactly when the folder path occurs somewhere inside the
    settings string [privateDirs]. *)
Theorem hidden_iff_folder_occurs_in_settings (this : World) (view : View)
    (file : TFile) (dir : TFolder) :
  currentLevel this = HidePrivate ->
  own_file view = Some (Some file) ->
  parent file = Some dir ->
  editor view = false \/ privateNoteMarker (settings this) = ""
    \/ noteTags this view = Return [] ->
  exists b, shouldRevealLeaf this view = Return b
            /\ (b = false <->
                exists pre post,
                  privateDirs (settings this) = pre +:+ path dir +:+ post).
Proof.
  intros Hlevel Hfile Hparent Hskip.
  exists (negb (contains (privateDirs (settings this)) (path dir))).
  split; [by apply (directory_rule_is_substring_test this view file dir) |].
  by rewrite negb_false_iff, contains_occurrence.
Qed.

Lemma hidden_iff_folder_occurs_in_settings_witness :
  exists b,
    shouldRevealLeaf (Sample.world HidePrivate (Sample.cache Sample.untagged))
                     (Sample.panel 1 "ance,the") = Return b
    /\ (b = false <->
        exists pre post, "finance,therapy" = pre +:+ "ance,the" +:+ post).
Proof.
  apply (hidden_iff_folder_occurs_in_settings
           (Sample.world HidePrivate (Sample.cache Sample.untagged))
           (Sample.panel 1 "ance,the") (Sample.note "ance,the")
           {| path := "ance,the" |});
    [reflexivity | reflexivity | reflexivity | right; right; reflexivity].
Defined.

(** X2: every entry of [privateDirs.split(",")], the list that the
    navigation rules are generated from, names a folder whose files are
    hidden under [HidePrivate] when the tag rule does not decide. *)
Theorem listed_directories_are_hidden (this : World) (view : View)
    (file : TFile) (dir : TFolder) :
  currentLevel this = HidePrivate ->
  own_file view = Some (Some file) ->
  parent file = Some dir ->
  editor view = false \/ privateNoteMarker (settings this) = ""
    \/ noteTags this view = Return [] ->
  path dir ∈ split_commas (privateDirs (settings this)) ->
  shouldRevealLeaf this view = Return false.
Proof.
  intros Hlevel Hfile Hparent Hskip Hlisted.
  rewrite (directory_rule_is_substring_test this view file dir) by done.
  by rewrite (split_commas_entries_occur _ _ Hlisted).
Qed.

Lemma listed_directories_are_hidden_witness :
  split_commas "finance,therapy" = ["finance"; "therapy"]
  /\ shouldRevealLeaf (Sample.world HidePrivate (Sample.cache Sample.tagged_private))
                      (Sample.viewer 1 "finance") = Return false.
Proof.
  split; [reflexivity |].
  apply (listed_directories_are_hidden
           (Sample.world HidePrivate (Sample.cache Sample.tagged_private))
           (Sample.viewer 1 "finance") (Sample.note "finance")
           {| path := "finance" |});
    [reflexivity | reflexivity | reflexivity | left; reflexivity
    | apply list_elem_of_here].
Defined.

(** ** What the decision reads *)

(** The decision reads the level, the settings and the metadata cache,
    and nothing else of the state. *)
Lemma shouldRevealLeaf_inputs (w w' : World) (view : View) :
  currentLevel w' = currentLevel w ->
  settings w' = settings w ->
  metadataCache w' = metadataCache w ->
  shouldRevealLeaf w' view = shouldRevealLeaf w view.
Proof.
  intros Hl Hs Hm. unfold shouldRevealLeaf, noteTags. by rewrite Hl, Hs, Hm.
Qed.

(** X3: a panel without an own [file] property is decided by the level
    alone, at every level and whatever the settings and the metadata
    are: revealed under [HidePrivate] and [RevealAll], hidden under
    [HideAll] and [RevealHeadlines], and never an exception. *)
Theorem panels_without_file_property_follow_the_level (this : World) (view : View) :
  isMarkdownFileInfoView view = false ->
  shouldRevealLeaf this view = Return (level_reveals (currentLevel this)).
Proof.
  intros Hmd. unfold shouldRevealLeaf. rewrite Hmd.
  by destruct (currentLevel this).
Qed.

Lemma panels_without_file_property_follow_the_level_witness :
  shouldRevealLeaf (Sample.world HidePrivate (Sample.cache None))
                   PassSample.side_panel = Return true.
Proof.
  apply (panels_without_file_property_follow_the_level
           (Sample.world HidePrivate (Sample.cache None)) PassSample.side_panel).
  reflexivity.
Defined.

(** X4: with an empty marker the metadata cache is never consulted: at
    every level and for every panel the outcome is the same whatever
    the cache holds or does, so missing metadata cannot make the
    evaluation fail. *)
Theorem empty_marker_never_reads_metadata (this : World) (view : View)
    (m : MetadataCache) :
  privateNoteMarker (settings this) = "" ->
  shouldRevealLeaf (set_metadataCache m this) view = shouldRevealLeaf this view
  /\ (view_file view = None \/ (exists file dir, view_file view = Some file
                                                /\ parent file = Some dir) ->
      exists b, shouldRevealLeaf this view = Return b).
Proof.
  intros Hmarker. split.
  - unfold shouldRevealLeaf. cbn [currentLevel settings set_metadataCache].
    rewrite Hmarker, andb_false_r. reflexivity.
  - intros Hfile. unfold shouldRevealLeaf. rewrite Hmarker, andb_false_r.
    destruct (Level_eqb _ RevealAll); [by eexists |].
    destruct (_ || _); [by eexists |].
    destruct (negb _); [by eexists |]. cbn [obind].
    destruct Hfile as [-> | (file & dir & -> & Hparent)]; [by eexists |].
    rewrite Hparent. cbn. destruct (negb _); by eexists.
Qed.

Lemma empty_marker_never_reads_metadata_witness :
  let this := set_settings PassSample.no_marker
                (Sample.world HidePrivate (Sample.cache None)) in
  shouldRevealLeaf this (Sample.panel 1 "work/notes") = Return true
  /\ shouldRevealLeaf (set_metadataCache (Sample.cache Sample.tagged_private) this)
                      (Sample.panel 1 "work/notes")
     = shouldRevealLeaf this (Sample.panel 1 "work/notes").
Proof.
  split; [reflexivity |].
  apply (empty_marker_never_reads_metadata
           (set_settings PassSample.no_marker
              (Sample.world HidePrivate (Sample.cache None)))
           (Sample.panel 1 "work/notes")
           (Sample.cache Sample.tagged_private)).
  reflexivity.
Defined.

Lemma missing_metadata_throws_witness :
  shouldRevealLeaf (Sample.world HidePrivate (Sample.cache Sample.no_frontmatter))
                   (Sample.panel 1 "finance") = Throw TypeError.
Proof.
  apply (missing_metadata_throws
           (Sample.world HidePrivate (Sample.cache Sample.no_frontmatter))
           (Sample.panel 1 "finance"));
    [reflexivity | reflexivity | reflexivity | discriminate |].
  right. eexists. split; reflexivity.
Defined.

(** ** Restyling one panel *)

Lemma same_inputs_refl (w : World) : same_inputs w w.
Proof. by repeat split. Qed.

Lemma same_inputs_trans (w1 w2 w3 : World) :
  same_inputs w1 w2 -> same_inputs w2 w3 -> same_inputs w1 w3.
Proof.
  intros (H1 & H2 & H3 & H4 & H5) (G1 & G2 & G3 & G4 & G5).
  repeat split; congruence.
Qed.

Lemma same_inputs_decision (w w' : World) (view : View) :
  same_inputs w w' -> shouldRevealLeaf w' view = shouldRevealLeaf w view.
Proof. intros (Hl & Hs & Hm & _). by apply shouldRevealLeaf_inputs. Qed.

Lemma updateLeafViewStyle_frame (view : View) (this : World) :
  same_inputs this (updateLeafViewStyle view this).2
  /\ body (updateLeafViewStyle view this).2 = body this
  /\ timeouts (updateLeafViewStyle view this).2 = timeouts this.
Proof.
  unfold updateLeafViewStyle.
  destruct (isMarkdownFileInfoView view && editor view);
    cbn [andb]; [destruct (Level_eqb _ _) |];
    destruct (shouldRevealLeaf _ view) as [[] | e]; by repeat split.
Qed.

(** The class list of every element after one panel has been restyled. *)
Lemma updateLeafViewStyle_classes (view : View) (this : World) (el : ElemId) :
  classList (updateLeafViewStyle view this).2 el
  = if decide (containerEl view = el)
    then
      let base := classList this el ∖ list_to_set kind_classes
                  ∪ {[kind_class (currentLevel this) view]} in
      match shouldRevealLeaf this view with
      | Return true => base ∪ {[CssClass.PrivacyGlassesReveal]}
      | Return false => base ∖ list_to_set [CssClass.PrivacyGlassesReveal]
      | Throw _ => base
      end
    else classList this el.
Proof.
  unfold updateLeafViewStyle.
  set (w1 := removeClass _ (containerEl view) this).
  set (w2 := if _ && Level_eqb (currentLevel w1) RevealHeadlines then _ else _).
  assert (Hin : shouldRevealLeaf w2 view = shouldRevealLeaf this view).
  { apply shouldRevealLeaf_inputs; subst w2 w1;
      destruct (isMarkdownFileInfoView view && editor view); cbn [andb];
      try destruct (Level_eqb _ _); reflexivity. }
  assert (Hw2 : classList w2 el
                = if decide (containerEl view = el)
                  then classList this el ∖ list_to_set kind_classes
                       ∪ {[kind_class (currentLevel this) view]}
                  else classList this el).
  { subst w2 w1. unfold kind_class.
    destruct (isMarkdownFileInfoView view && editor view); cbn [andb].
    - change (currentLevel (removeClass _ _ this)) with (currentLevel this).
      destruct (Level_eqb _ _);
        rewrite classList_addClass, classList_removeClass;
        by destruct (decide (containerEl view = el)).
    - rewrite classList_addClass, classList_removeClass.
      by destruct (decide (containerEl view = el)). }
  rewrite Hin.
  destruct (shouldRevealLeaf this view) as [[] | e]; cbn [snd].
  - change (classList (set_revealed _ ?w) el) with (classList w el).
    rewrite classList_addClass, Hw2. by destruct (decide _).
  - rewrite classList_removeClass, Hw2. by destruct (decide _).
  - rewrite Hw2. by destruct (decide _).
Qed.

(** Membership in a class list built with union, difference and
    singletons, spelled out. *)
Ltac unfold_classes :=
  repeat first
    [ rewrite elem_of_union | rewrite elem_of_difference
    | rewrite elem_of_list_to_set | rewrite list_elem_of_singleton
    | rewrite elem_of_singleton ].

Lemma kind_class_is_a_kind (l : Level) (view : View) :
  kind_class l view ∈ kind_classes.
Proof.
  unfold kind_class, kind_classes.
  destruct (_ && _); [destruct (Level_eqb _ _) |];
    repeat first [apply list_elem_of_here | apply list_elem_of_further].
Qed.

Lemma reveal_is_no_kind : CssClass.PrivacyGlassesReveal ∉ kind_classes.
Proof.
  unfold kind_classes. rewrite !elem_of_cons, elem_of_nil.
  intros [H | [H | [H | []]]]; discriminate H.
Qed.

Section OnePanel.
Variables (view : View) (this : World).
Let after := (updateLeafViewStyle view this).2.
Let el := containerEl view.

Lemma updateLeafViewStyle_other (other : ElemId) :
  other ≠ el -> classList after other = classList this other.
Proof.
  intros Hne. subst after. rewrite updateLeafViewStyle_classes.
  by destruct (decide _).
Qed.

Lemma kind_is_not_reveal :
  kind_class (currentLevel this) view ≠ CssClass.PrivacyGlassesReveal.
Proof.
  pose proof (kind_class_is_a_kind (currentLevel this) view) as Hkind.
  intros Heq. rewrite Heq in Hkind. by apply reveal_is_no_kind.
Qed.

Lemma updateLeafViewStyle_kind (k : string) :
  k ∈ kind_classes ->
  k ∈ classList after el <-> k = kind_class (currentLevel this) view.
Proof.
  intros Hk. pose proof kind_is_not_reveal as HKR.
  pose proof reveal_is_no_kind as Hrev.
  subst after. rewrite updateLeafViewStyle_classes. fold el.
  rewrite decide_True by done. cbv zeta.
  destruct (shouldRevealLeaf this view) as [[] | e]; unfold_classes;
    naive_solver.
Qed.

Lemma updateLeafViewStyle_reveal :
  CssClass.PrivacyGlassesReveal ∈ classList after el
  <-> marked_revealed
        (bool_decide (CssClass.PrivacyGlassesReveal ∈ classList this el))
        (shouldRevealLeaf this view) = true.
Proof.
  pose proof kind_is_not_reveal as HKR.
  pose proof reveal_is_no_kind as Hrev.
  subst after. rewrite updateLeafViewStyle_classes. fold el.
  rewrite decide_True by done. cbv zeta.
  destruct (shouldRevealLeaf this view) as [[] | e]; cbn [marked_revealed];
    rewrite ?bool_decide_eq_true; unfold_classes; naive_solver.
Qed.

Lemma updateLeafViewStyle_rest (c : string) :
  c ∉ kind_classes -> c ≠ CssClass.PrivacyGlassesReveal ->
  c ∈ classList after el <-> c ∈ classList this el.
Proof.
  intros Hc Hr.
  assert (c ≠ kind_class (currentLevel this) view).
  { intros ->. apply Hc, kind_class_is_a_kind. }
  subst after. rewrite updateLeafViewStyle_classes. fold el.
  rewrite decide_True by done. cbv zeta.
  destruct (shouldRevealLeaf this view) as [[] | e]; unfold_classes;
    naive_solver.
Qed.

Lemma updateLeafViewStyle_result :
  (updateLeafViewStyle view this).1
  = match shouldRevealLeaf this view with
    | Return _ => Return tt
    | Throw e => Throw e
    end
  /\ revealed after
     = revealed this ++ match shouldRevealLeaf this view with
                        | Return true => [el]
                        | _ => []
                        end.
Proof.
  subst after el. unfold updateLeafViewStyle.
  set (w2 := if _ && Level_eqb _ RevealHeadlines then _ else _).
  assert (Hin : shouldRevealLeaf w2 view = shouldRevealLeaf this view).
  { apply shouldRevealLeaf_inputs; subst w2;
      destruct (isMarkdownFileInfoView view && editor view); cbn [andb];
      try destruct (Level_eqb _ _); reflexivity. }
  assert (Hrev : revealed w2 = revealed this).
  { subst w2. destruct (isMarkdownFileInfoView view && editor view); cbn [andb];
      try destruct (Level_eqb _ _); reflexivity. }
  rewrite Hin.
  destruct (shouldRevealLeaf this view) as [[] | e]; cbn; rewrite Hrev;
    by rewrite ?app_nil_r.
Qed.
End OnePanel.

(** X6: restyling one panel touches its own container only.  On that
    container it leaves exactly one kind class, the one for the panel
    and the level; it leaves the reveal class on exactly when the
    decision is to reveal; and when the decision throws, the reveal
    class stays as it was, so a panel revealed earlier stays revealed.
    Every other class is kept. *)
Theorem restyling_one_panel (view : View) (this : World) :
  let after := (updateLeafViewStyle view this).2 in
  let el := containerEl view in
  (forall other, other ≠ el -> classList after other = classList this other)
  /\ (forall k, k ∈ kind_classes ->
                k ∈ classList after el <-> k = kind_class (currentLevel this) view)
  /\ (CssClass.PrivacyGlassesReveal ∈ classList after el
      <-> marked_revealed
            (bool_decide (CssClass.PrivacyGlassesReveal ∈ classList this el))
            (shouldRevealLeaf this view) = true)
  /\ (forall c, c ∉ kind_classes -> c ≠ CssClass.PrivacyGlassesReveal ->
                c ∈ classList after el <-> c ∈ classList this el)
  /\ (updateLeafViewStyle view this).1
     = match shouldRevealLeaf this view with
       | Return _ => Return tt
       | Throw e => Throw e
       end.
Proof.
  intros after el.
  split; [apply updateLeafViewStyle_other |].
  split; [apply updateLeafViewStyle_kind |].
  split; [apply updateLeafViewStyle_reveal |].
  split; [apply updateLeafViewStyle_rest |].
  apply updateLeafViewStyle_result.
Qed.

(** ** Restyling every panel *)

#[local] Abbreviation pass := (iterateAllLeaves updateLeafViewStyle).

Lemma pass_frame (ls : list View) (w : World) :
  same_inputs w (pass ls w).2
  /\ body (pass ls w).2 = body w
  /\ timeouts (pass ls w).2 = timeouts w.
Proof.
  revert w. induction ls as [| v rest IH]; intros w; cbn [iterateAllLeaves].
  - split; [apply same_inputs_refl | done].
  - destruct (updateLeafViewStyle_frame v w) as (Hin & Hb & Ht).
    destruct (updateLeafViewStyle v w) as [[[] | e] w1]; cbn [snd] in *.
    + destruct (IH w1) as (Hin' & Hb' & Ht').
      split; [by eapply same_inputs_trans |]. split; congruence.
    + done.
Qed.

Lemma pass_untouched (ls : list View) (w : World) (el : ElemId) :
  el ∉ map containerEl ls -> classList (pass ls w).2 el = classList w el.
Proof.
  revert w. induction ls as [| v rest IH]; intros w Hel; [reflexivity |].
  cbn [iterateAllLeaves]. cbn [map] in Hel. rewrite not_elem_of_cons in Hel.
  destruct Hel as [Hne Hrest].
  pose proof (updateLeafViewStyle_other v w el Hne) as Hv.
  destruct (updateLeafViewStyle v w) as [[[] | e] w1]; cbn [snd] in *.
  - by rewrite IH.
  - done.
Qed.

(** The pass succeeds exactly when every panel gets a decision. *)
Lemma pass_result (ls : list View) (w : World) :
  (pass ls w).1 = Return tt
  <-> Forall (fun v => exists b, shouldRevealLeaf w v = Return b) ls.
Proof.
  revert w. induction ls as [| v rest IH]; intros w; cbn [iterateAllLeaves].
  - split; [by constructor | done].
  - destruct (updateLeafViewStyle_result v w) as [Hres _].
    destruct (updateLeafViewStyle_frame v w) as (Hin & _).
    destruct (updateLeafViewStyle v w) as [[[] | e] w1]; cbn [fst snd] in *.
    + rewrite IH, Forall_cons. split.
      * intros Hall. split.
        -- destruct (shouldRevealLeaf w v) as [b | e]; [by exists b | done].
        -- eapply Forall_impl; [exact Hall |]. intros v' [b Hb]. exists b.
           by rewrite <- (same_inputs_decision w w1).
      * intros [_ Hall]. eapply Forall_impl; [exact Hall |].
        intros v' [b Hb]. exists b. by rewrite (same_inputs_decision w w1).
    + rewrite Forall_cons. split; [done |]. intros [[b Hb] _].
      rewrite Hb in Hres. discriminate Hres.
Qed.

Lemma pass_marks (ls : list View) (w : World) (v : View) :
  NoDup (map containerEl ls) ->
  (pass ls w).1 = Return tt ->
  v ∈ ls ->
  (CssClass.PrivacyGlassesReveal ∈ classList (pass ls w).2 (containerEl v)
   <-> shouldRevealLeaf w v = Return true)
  /\ (forall k, k ∈ kind_classes ->
                k ∈ classList (pass ls w).2 (containerEl v)
                <-> k = kind_class (currentLevel w) v).
Proof.
  revert w. induction ls as [| u rest IH]; intros w Hnd Hok Hv.
  { by apply elem_of_nil in Hv. }
  cbn [map] in Hnd. apply NoDup_cons in Hnd as [Hfresh Hnd].
  cbn [iterateAllLeaves] in Hok |- *.
  destruct (updateLeafViewStyle_result u w) as [Hres _].
  destruct (updateLeafViewStyle_frame u w) as (Hin & _).
  pose proof (updateLeafViewStyle_reveal u w) as Hreveal.
  pose proof (updateLeafViewStyle_kind u w) as Hkind.
  destruct (updateLeafViewStyle u w) as [[[] | e] w1]; cbn [fst snd] in *;
    [| discriminate Hok].
  apply elem_of_cons in Hv as [-> | Hv].
  - rewrite (pass_untouched rest w1 _ Hfresh). split.
    + rewrite Hreveal.
      destruct (shouldRevealLeaf w u) as [b | e]; [| discriminate Hres].
      cbn. split; [by intros -> | by intros [= ->]].
    + exact Hkind.
  - destruct (IH w1 Hnd Hok Hv) as [Hr Hk]. split.
    + by rewrite Hr, (same_inputs_decision w w1).
    + destruct Hin as [Hl _]. by rewrite <- Hl.
Qed.

(** When every panel gets the same decision [b]: the pass succeeds,
    every container it visits ends with the reveal class on exactly
    when [b] holds, and so does every container that was so before. *)
Lemma pass_constant (b : bool) (ls : list View) (w : World) :
  Forall (fun v => shouldRevealLeaf w v = Return b) ls ->
  (pass ls w).1 = Return tt
  /\ revealed (pass ls w).2
     = revealed w ++ (if b then map containerEl ls else [])
  /\ forall el,
       el ∈ map containerEl ls
       \/ (CssClass.PrivacyGlassesReveal ∈ classList w el <-> b = true) ->
       CssClass.PrivacyGlassesReveal ∈ classList (pass ls w).2 el <-> b = true.
Proof.
  revert w. induction ls as [| u rest IH]; intros w Hall; cbn [iterateAllLeaves].
  - split; [done |]. split; [by destruct b; rewrite app_nil_r |].
    intros el [Hel | Hel]; [by apply elem_of_nil in Hel | exact Hel].
  - apply Forall_cons in Hall as [Hu Hall].
    destruct (updateLeafViewStyle_result u w) as [Hres Hrev].
    destruct (updateLeafViewStyle_frame u w) as (Hin & _).
    pose proof (updateLeafViewStyle_reveal u w) as Hreveal.
    pose proof (updateLeafViewStyle_other u w) as Hother.
    rewrite Hu in Hres, Hrev, Hreveal. cbn [marked_revealed] in Hreveal.
    destruct (updateLeafViewStyle u w) as [[[] | e] w1]; cbn [fst snd] in *;
      [| discriminate Hres].
    destruct (IH w1) as (Hok & Hrev' & Hmark).
    { eapply Forall_impl; [exact Hall |]. intros v' Hv'.
      by rewrite (same_inputs_decision w w1). }
    split; [exact Hok |]. split.
    + rewrite Hrev', Hrev. destruct b; cbn [map]; by rewrite <- ?app_assoc.
    + intros el Hel. apply Hmark.
      destruct (decide (el = containerEl u)) as [-> | Hne]; [by right |].
      destruct Hel as [[Heq | Hel]%elem_of_cons | Hel];
        [contradiction | by left | right].
      by rewrite Hother.
Qed.

Lemma newly_revealed_inputs (w w' : World) (ls : list View) :
  same_inputs w w' -> newly_revealed w' ls = newly_revealed w ls.
Proof.
  intros Hin. induction ls as [| u rest IH]; cbn [newly_revealed]; [done |].
  by rewrite (same_inputs_decision w w'), IH.
Qed.

Lemma pass_revealed (ls : list View) (w : World) :
  revealed (pass ls w).2 = revealed w ++ newly_revealed w ls.
Proof.
  revert w. induction ls as [| v rest IH]; intros w;
    cbn [iterateAllLeaves newly_revealed].
  - by rewrite app_nil_r.
  - destruct (updateLeafViewStyle_result v w) as [Hres Hrev].
    destruct (updateLeafViewStyle_frame v w) as (Hin & _).
    destruct (updateLeafViewStyle v w) as [[[] | e] w1]; cbn [fst snd] in *.
    + rewrite IH, Hrev.
      rewrite (newly_revealed_inputs w w1 rest Hin).
      destruct (shouldRevealLeaf w v) as [[] | e]; [| | discriminate Hres];
        by rewrite <- ?app_assoc, ?app_nil_r.
    + rewrite Hrev. destruct (shouldRevealLeaf w v) as [b | e'];
        [discriminate Hres | reflexivity].
Qed.

Lemma newly_revealed_complete (w : World) (ls : list View) (v : View) :
  Forall (fun u => exists b, shouldRevealLeaf w u = Return b) ls ->
  v ∈ ls -> shouldRevealLeaf w v = Return true ->
  containerEl v ∈ newly_revealed w ls.
Proof.
  induction 1 as [| u rest [b Hb] _ IH]; intros Hv Hrev;
    [by apply elem_of_nil in Hv |].
  cbn [newly_revealed]. rewrite Hb.
  apply elem_of_cons in Hv as [-> | Hv].
  - rewrite Hrev in Hb. injection Hb as <-. apply list_elem_of_here.
  - destruct b; [apply list_elem_of_further |]; by apply IH.
Qed.

(** C7, as the code has it: when a hooked panel's switch is invoked,
    the rest of the wrapper, and with it the underlying operation,
    starts from the state the before-callback leaves; in that state no
    element of [revealed] carries the reveal class, whichever panel is
    switching, and every other class of every element is as it was.
    The list [revealed] itself is left as it was.  A restyling pass
    does not rebuild the list either: it appends to it the container
    of every panel it reveals, so that after a pass that returns, every
    open panel decided to be revealed has been appended. *)
Theorem before_switch_unmarks_revealed_panels
    (host : nat -> World -> Call World) (original : SetStateFn) (this : World) :
  let blank := onBeforeViewStateChange this in
  call_setState host
    (HookWrapper original CallOnBeforeViewStateChange CallOnAfterViewStateChange)
    this
  = wrapper (fun w => w) onAfterViewStateChange (call_setState host original) blank
  /\ (forall r, r ∈ revealed this -> CssClass.Reveal ∉ classList blank r)
  /\ (forall el c, c ≠ CssClass.Reveal ->
                   c ∈ classList blank el <-> c ∈ classList this el)
  /\ revealed blank = revealed this
  /\ revealed (updateLeavesStyle this).2
     = revealed this ++ newly_revealed this (leaves this)
  /\ ((updateLeavesStyle this).1 = Return tt ->
      forall v, v ∈ leaves this -> shouldRevealLeaf this v = Return true ->
                containerEl v ∈ newly_revealed this (leaves this)).
Proof.
  intros blank.
  destruct (unmark_all_revealed (revealed this) this) as (Hrev & _ & Hcls).
  fold (onBeforeViewStateChange this) in Hrev, Hcls. fold blank in Hrev, Hcls.
  split; [reflexivity |]. split; [| split; [| split; [| split]]].
  - intros r Hr. rewrite Hcls.
    destruct (decide (r ∈ revealed this)); [| contradiction].
    rewrite elem_of_difference, elem_of_singleton. tauto.
  - intros el c Hc. rewrite Hcls.
    destruct (decide (el ∈ revealed this)); [| reflexivity].
    rewrite elem_of_difference, elem_of_singleton. tauto.
  - exact Hrev.
  - apply pass_revealed.
  - intros Hok v Hv Hdec. apply newly_revealed_complete; [| done | done].
    by apply pass_result.
Qed.

(** C7, as stated, fails: after one restyling pass over two revealable
    panels, the before-callback leaves both in [revealed], and a second
    pass lists each of them twice. *)
Lemma revealed_is_never_emptied :
  let w := (updateLeavesStyle FlickerSample.world).2 in
  revealed w = [1; 2]
  /\ revealed (onBeforeViewStateChange w) = [1; 2]
  /\ revealed (updateLeavesStyle (onBeforeViewStateChange w)).2 = [1; 2; 1; 2].
Proof. repeat split. Qed.

Lemma absolute_decision (l : Level) (w : World) (v : View) :
  l ≠ HidePrivate -> currentLevel w = l ->
  shouldRevealLeaf w v = Return (level_reveals l).
Proof.
  intros Hl Hw. unfold shouldRevealLeaf. rewrite Hw.
  by destruct l.
Qed.

(** X7: when a restyling pass over panels with distinct containers
    comes back without an exception, every open panel carries the
    reveal class exactly when the decision for it, taken in the state
    before the pass, is to reveal, and carries exactly the kind class
    for it and the level; containers of no open panel are untouched.
    What was marked before the pass plays no part. *)
Theorem pass_marks_each_panel_as_decided (this : World) :
  NoDup (map containerEl (leaves this)) ->
  (updateLeavesStyle this).1 = Return tt ->
  let after := (updateLeavesStyle this).2 in
  (forall v, v ∈ leaves this ->
     (CssClass.PrivacyGlassesReveal ∈ classList after (containerEl v)
      <-> shouldRevealLeaf this v = Return true)
     /\ (forall k, k ∈ kind_classes ->
                   k ∈ classList after (containerEl v)
                   <-> k = kind_class (currentLevel this) v))
  /\ (forall el, el ∉ map containerEl (leaves this) ->
                 classList after el = classList this el).
Proof.
  intros Hnd Hok after. split.
  - intros v Hv. by apply pass_marks.
  - intros el Hel. by apply pass_untouched.
Qed.

Lemma pass_marks_each_panel_as_decided_witness :
  let after := (updateLeavesStyle PassSample.desk).2 in
  (updateLeavesStyle PassSample.desk).1 = Return tt
  /\ forall v, v ∈ leaves PassSample.desk ->
       (CssClass.PrivacyGlassesReveal ∈ classList after (containerEl v)
        <-> shouldRevealLeaf PassSample.desk v = Return true)
       /\ (forall k, k ∈ kind_classes ->
                     k ∈ classList after (containerEl v)
                     <-> k = kind_class (currentLevel PassSample.desk) v).
Proof.
  split; [reflexivity |].
  apply (pass_marks_each_panel_as_decided PassSample.desk).
  - cbn. repeat constructor; rewrite ?elem_of_cons, ?elem_of_nil;
      intros H; repeat destruct H as [H | H]; done.
  - reflexivity.
Defined.

(** X8: a restyling pass that throws leaves the document body as it
    was: after a level command whose pass throws, the level field holds
    the new level while the body still carries the classes of the old
    one; and only [HidePrivate] can make the pass throw. *)
Theorem failed_command_leaves_body_stale (l : Level) (this : World) (e : JsError) :
  (command l this).1 = Throw e ->
  body (command l this).2 = body this
  /\ currentLevel (command l this).2 = l
  /\ l = HidePrivate.
Proof.
  unfold command, updateLeavesAndGlobalReveals, updateLeavesStyle.
  cbn [leaves set_currentLevel].
  set (w := set_currentLevel l this).
  destruct (pass_frame (leaves this) w) as ((Hl & _) & Hb & _).
  intros Hthrow. split; [| split].
  - destruct (pass (leaves this) w) as [[[] | e'] w']; [discriminate Hthrow |].
    exact Hb.
  - destruct (pass (leaves this) w) as [[[] | e'] w']; [discriminate Hthrow |].
    exact Hl.
  - assert (l = HidePrivate \/ l ≠ HidePrivate) as [| Hne]
      by (destruct l; auto; right; discriminate); [done | exfalso].
    destruct (pass_constant (level_reveals l) (leaves this) w) as [Hok _].
    { apply Forall_forall. intros v _. by apply absolute_decision. }
    destruct (pass (leaves this) w) as [[[] | e'] w']; cbn in *; discriminate.
Qed.

Lemma failed_command_leaves_body_stale_witness :
  body PassSample.world = {[CssClass.BlurAll]}
  /\ body (command HidePrivate PassSample.world).2 = body PassSample.world
  /\ currentLevel (command HidePrivate PassSample.world).2 = HidePrivate
  /\ HidePrivate = HidePrivate.
Proof.
  split; [reflexivity |].
  apply (failed_command_leaves_body_stale HidePrivate PassSample.world TypeError).
  reflexivity.
Defined.

(** ** The document body *)

Lemma updateGlobalRevealStyle_frame (w : World) :
  same_inputs w (updateGlobalRevealStyle w)
  /\ classes (updateGlobalRevealStyle w) = classes w
  /\ revealed (updateGlobalRevealStyle w) = revealed w
  /\ timeouts (updateGlobalRevealStyle w) = timeouts w.
Proof.
  unfold updateGlobalRevealStyle.
  destruct (currentLevel w) eqn:Hl; cbn; rewrite ?Hl; cbn;
    destruct (hoverToReveal (settings w)); cbn;
    destruct (revealUnderCaret (settings w)); cbn; by repeat split.
Qed.

Lemma updateGlobalRevealStyle_body (w : World) (c : string) :
  c ∈ body (updateGlobalRevealStyle w)
  <-> (c ∈ body w /\ c ∉ global_classes)
      \/ level_class (currentLevel w) = Some c
      \/ (c = CssClass.RevealOnHover /\ hoverToReveal (settings w) = true)
      \/ (c = CssClass.RevealUnderCaret /\ revealUnderCaret (settings w) = true).
Proof.
  unfold updateGlobalRevealStyle, removeAllClasses, global_classes.
  destruct (currentLevel w) eqn:Hl; cbn; rewrite ?Hl; cbn;
    destruct (hoverToReveal (settings w)); cbn;
    destruct (revealUnderCaret (settings w)); cbn;
    unfold_classes; rewrite ?elem_of_cons, ?elem_of_nil, ?elem_of_empty;
    naive_solver.
Qed.

Lemma global_classes_distinct :
  NoDup global_classes /\ NoDup kind_classes.
Proof.
  split; repeat constructor; rewrite ?elem_of_cons, ?elem_of_nil;
    intros H; repeat destruct H as [H | H]; done.
Qed.

(** X9: after the global restyle the document body carries the class
    of the current level and of no other level (none at all under
    [HidePrivate]), the hover class exactly when hover-to-reveal is on,
    the caret class exactly when reveal-under-caret is on, and every
    class that is not one of these five as before; doing it a second
    time changes nothing. *)
Theorem body_shows_the_level (this : World) :
  let after := updateGlobalRevealStyle this in
  (forall l, level_class l ≠ None ->
             (exists k, level_class l = Some k /\ k ∈ body after)
             <-> l = currentLevel this)
  /\ (CssClass.RevealOnHover ∈ body after
      <-> hoverToReveal (settings this) = true)
  /\ (CssClass.RevealUnderCaret ∈ body after
      <-> revealUnderCaret (settings this) = true)
  /\ (forall c, c ∉ global_classes -> c ∈ body after <-> c ∈ body this)
  /\ body (updateGlobalRevealStyle after) = body after.
Proof.
  intros after. subst after.
  assert (Hglobal : forall l k, level_class l = Some k -> k ∈ global_classes).
  { intros l k Hk. unfold global_classes. rewrite !elem_of_cons.
    destruct l; cbn in Hk; [| done | |]; injection Hk as <-; auto 10. }
  assert (Hhover : CssClass.RevealOnHover ∈ global_classes).
  { unfold global_classes. rewrite !elem_of_cons. auto 10. }
  assert (Hcaret : CssClass.RevealUnderCaret ∈ global_classes).
  { unfold global_classes. rewrite !elem_of_cons. auto 10. }
  split; [| split; [| split; [| split]]].
  - intros l Hl. split.
    + intros (k & Hk & Hin). apply updateGlobalRevealStyle_body in Hin.
      destruct Hin as [[_ Hnot] | [Hlev | [[-> _] | [-> _]]]].
      * exfalso. apply Hnot. by apply (Hglobal l).
      * destruct l, (currentLevel this); try reflexivity; exfalso;
          vm_compute in Hk, Hlev; congruence.
      * destruct l; vm_compute in Hk; congruence.
      * destruct l; vm_compute in Hk; congruence.
    + intros ->. destruct (level_class (currentLevel this)) as [k |] eqn:Hk;
        [| done].
      exists k. split; [done |]. apply updateGlobalRevealStyle_body. auto.
  - rewrite updateGlobalRevealStyle_body. split.
    + intros [[_ Hnot] | [Hlev | [[_ H] | [H _]]]]; [done | | done | done].
      destruct (currentLevel this); vm_compute in Hlev; congruence.
    + auto.
  - rewrite updateGlobalRevealStyle_body. split.
    + intros [[_ Hnot] | [Hlev | [[H _] | [_ H]]]]; [done | | done | done].
      destruct (currentLevel this); vm_compute in Hlev; congruence.
    + auto.
  - intros c Hc. rewrite updateGlobalRevealStyle_body. split; [| auto].
    intros [[H _] | [Hlev | [[-> _] | [-> _]]]]; [done | exfalso ..].
    + by apply Hc, (Hglobal (currentLevel this)).
    + by apply Hc.
    + by apply Hc.
  - apply set_eq. intros c.
    destruct (updateGlobalRevealStyle_frame this) as ((Hl & Hs & _) & _).
    rewrite updateGlobalRevealStyle_body, Hl, Hs, updateGlobalRevealStyle_body.
    tauto.
Qed.

(** ** Level commands *)

Lemma command_absolute (l : Level) (this : World) :
  l ≠ HidePrivate ->
  (command l this).1 = Return tt
  /\ currentLevel (command l this).2 = l
  /\ (forall v, v ∈ leaves this ->
        CssClass.PrivacyGlassesReveal ∈ classList (command l this).2 (containerEl v)
        <-> l = RevealAll)
  /\ (forall k, level_class l = Some k -> k ∈ body (command l this).2)
  /\ revealed (command l this).2
     = revealed this ++ (if level_reveals l
                         then map containerEl (leaves this) else []).
Proof.
  intros Hne.
  unfold command, updateLeavesAndGlobalReveals, updateLeavesStyle.
  cbn [leaves set_currentLevel].
  set (w := set_currentLevel l this).
  destruct (pass_frame (leaves this) w) as ((Hl & _) & _).
  destruct (pass_constant (level_reveals l) (leaves this) w) as (Hok & Hrev & Hmark).
  { apply Forall_forall. intros v _. by apply absolute_decision. }
  destruct (iterateAllLeaves updateLeafViewStyle (leaves this) w)
    as [[[] | e] w'] eqn:Hpass; cbn [fst snd] in *; [| discriminate Hok].
  destruct (updateGlobalRevealStyle_frame w') as ((Hl' & _) & Hcls & Hrev' & _).
  split; [done |]. split; [by rewrite Hl', Hl |].
  split; [| split].
  - intros v Hv. unfold classList at 1. rewrite Hcls. fold (classList w' (containerEl v)).
    rewrite Hmark by (left; by apply list_elem_of_fmap_2).
    destruct l; cbn; split; first [done | discriminate | contradiction].
  - intros k Hk. apply updateGlobalRevealStyle_body. right. left.
    by rewrite Hl.
  - by rewrite Hrev', Hrev.
Qed.

(** X10: the hide-all, reveal-all and reveal-headlines commands cannot
    fail, whatever the panels' metadata.  Afterwards the level is the
    commanded one, the body carries its class, every open panel carries
    the reveal class after reveal-all and none does after hide-all or
    reveal-headlines, and [revealed] has grown by every open panel's
    container after reveal-all and by nothing otherwise. *)
Theorem absolute_commands_cannot_fail (l : Level) (this : World) :
  l ≠ HidePrivate ->
  (command l this).1 = Return tt
  /\ currentLevel (command l this).2 = l
  /\ (forall v, v ∈ leaves this ->
        CssClass.PrivacyGlassesReveal ∈ classList (command l this).2 (containerEl v)
        <-> l = RevealAll)
  /\ (forall k, level_class l = Some k -> k ∈ body (command l this).2)
  /\ revealed (command l this).2
     = revealed this ++ (if level_reveals l
                         then map containerEl (leaves this) else []).
Proof. apply command_absolute. Qed.

Lemma absolute_commands_cannot_fail_witness :
  (command HidePrivate PassSample.world).1 = Throw TypeError
  /\ (command RevealAll PassSample.world).1 = Return tt
  /\ currentLevel (command RevealAll PassSample.world).2 = RevealAll
  /\ (forall v, v ∈ leaves PassSample.world ->
        CssClass.PrivacyGlassesReveal
          ∈ classList (command RevealAll PassSample.world).2 (containerEl v)
        <-> RevealAll = RevealAll)
  /\ (forall k, level_class RevealAll = Some k ->
                k ∈ body (command RevealAll PassSample.world).2)
  /\ revealed (command RevealAll PassSample.world).2
     = revealed PassSample.world
       ++ (if level_reveals RevealAll
           then map containerEl (leaves PassSample.world) else []).
Proof.
  split; [reflexivity |].
  apply (absolute_commands_cannot_fail RevealAll PassSample.world).
  discriminate.
Defined.

(** X11: when a tick of the idle monitor locks, it leaves no open panel
    with the reveal class and the body with the blur-all class. *)
Theorem idle_lock_hides_every_panel (now : float) (this : World) :
  currentLevel this ≠ HideAll ->
  currentLevel (checkIdleTimeout now this).2 = HideAll ->
  (forall v, v ∈ leaves this ->
     CssClass.PrivacyGlassesReveal
       ∉ classList (checkIdleTimeout now this).2 (containerEl v))
  /\ CssClass.BlurAll ∈ body (checkIdleTimeout now this).2.
Proof.
  intros Hne. unfold checkIdleTimeout.
  destruct (_ <? 0)%float; [by intros ? |].
  destruct (Level_eqb _ HideAll); [by intros ? |].
  destruct (negb (truthy_number _)); [by intros ? |].
  destruct (lastEventTime this) as [last |]; [| by intros ?].
  destruct (_ <=? _)%float; [| by intros ?].
  intros _. fold (command HideAll this).
  destruct (command_absolute HideAll this) as (_ & _ & Hmark & Hbody & _);
    [discriminate |].
  split.
  - intros v Hv Hin. by apply Hmark in Hin.
  - by apply Hbody.
Qed.

Lemma idle_lock_hides_every_panel_witness :
  let locked := (checkIdleTimeout 7000 (command RevealAll IdleSample.world).2).2 in
  (forall v, v ∈ leaves (command RevealAll IdleSample.world).2 ->
     CssClass.PrivacyGlassesReveal ∉ classList locked (containerEl v))
  /\ CssClass.BlurAll ∈ body locked.
Proof.
  apply (idle_lock_hides_every_panel 7000 (command RevealAll IdleSample.world).2).
  - discriminate.
  - reflexivity.
Defined.

(** ** Idle monitor, continued *)

Lemma no_activity_no_tick_witness :
  checkIdleTimeout 1000000 SwitchSample.asleep = (Return tt, SwitchSample.asleep).
Proof. apply (no_activity_no_tick 1000000 SwitchSample.asleep). reflexivity. Defined.

Lemma locked_tick (now : float) (w : World) :
  currentLevel w = HideAll -> checkIdleTimeout now w = (Return tt, w).
Proof.
  intros Hl. unfold checkIdleTimeout. rewrite Hl. cbn.
  by destruct (_ <? 0)%float.
Qed.

(** X13: what a tick does right after activity depends on the time of
    that activity alone, not on any time recorded before.  After
    activity at [t] a tick at [now] changes nothing when [t] is falsy
    (zero or [NaN]) or when the test of the code, the timeout compared
    in double precision with [(now - t) / 1000], fails; and when the
    level is not [HideAll], the timeout is not negative, [t] is truthy
    and the test holds, it locks. *)
Theorem tick_after_activity (t now : float) (this : World) :
  let w := onActivity t this in
  let timeout := blurOnIdleTimeoutSeconds (settings this) in
  (truthy_float t = false \/ (timeout <=? (now - t) / 1000)%float = false ->
   checkIdleTimeout now w = (Return tt, w))
  /\ (currentLevel this ≠ HideAll -> (timeout <? 0)%float = false ->
      truthy_float t = true -> (timeout <=? (now - t) / 1000)%float = true ->
      currentLevel (checkIdleTimeout now w).2 = HideAll)
  /\ (forall earlier,
        checkIdleTimeout now (onActivity t (set_lastEventTime earlier this))
        = checkIdleTimeout now w).
Proof.
  intros w timeout. split; [| split].
  - intros Hearly. subst w. unfold checkIdleTimeout.
    cbn [settings currentLevel lastEventTime onActivity set_lastEventTime
         truthy_number]. fold timeout.
    destruct (timeout <? 0)%float; [reflexivity |].
    destruct (Level_eqb _ _); [reflexivity |].
    destruct Hearly as [-> | Hle]; [reflexivity |].
    destruct (truthy_float t); cbn [negb]; [| reflexivity].
    by rewrite Hle.
  - intros Hne Hneg Htruthy Hle. subst w. unfold checkIdleTimeout.
    cbn [settings currentLevel lastEventTime onActivity set_lastEventTime
         truthy_number]. fold timeout. rewrite Hneg, Htruthy, Hle.
    destruct (Level_eqb (currentLevel this) HideAll) eqn:Hlv.
    { apply Level_eqb_eq in Hlv. contradiction. }
    cbn [negb]. by rewrite updateLeavesAndGlobalReveals_level.
  - reflexivity.
Qed.

Lemma tick_after_activity_witness :
  currentLevel (checkIdleTimeout 7000 IdleSample.world).2 = HideAll
  /\ checkIdleTimeout 7000 (onActivity 6500 IdleSample.world)
     = (Return tt, onActivity 6500 IdleSample.world).
Proof.
  split; [reflexivity |].
  apply (proj1 (tick_after_activity 6500 7000 IdleSample.world)).
  right. reflexivity.
Defined.

(** X14: the idle monitor never lifts a lock.  From a state at level
    [HideAll], after any run of ticks and activity the level is still
    [HideAll] and no class list, nor the body, nor [revealed] has
    changed. *)
Theorem idle_monitor_never_unlocks (evs : list IdleEvent) (this : World) :
  currentLevel this = HideAll ->
  let after := idle_run evs this in
  currentLevel after = HideAll
  /\ classes after = classes this
  /\ body after = body this
  /\ revealed after = revealed this
  /\ leaves after = leaves this
  /\ settings after = settings this.
Proof.
  revert this. unfold idle_run.
  induction evs as [| ev rest IH]; intros this Hl; [done |].
  cbn [fold_left].
  assert (Hstep : currentLevel (idle_step this ev) = HideAll
                  /\ classes (idle_step this ev) = classes this
                  /\ body (idle_step this ev) = body this
                  /\ revealed (idle_step this ev) = revealed this
                  /\ leaves (idle_step this ev) = leaves this
                  /\ settings (idle_step this ev) = settings this).
  { destruct ev as [now | t]; cbn [idle_step].
    - by rewrite locked_tick.
    - done. }
  destruct Hstep as (H1 & H2 & H3 & H4 & H5 & H6).
  destruct (IH _ H1) as (G1 & G2 & G3 & G4 & G5 & G6).
  cbv zeta. repeat split; congruence.
Qed.

Lemma idle_monitor_never_unlocks_witness :
  let locked := (checkIdleTimeout 7000 IdleSample.world).2 in
  currentLevel (idle_run [Activity 7100; Tick 8000; Tick 20000; Activity 20001] locked)
  = HideAll.
Proof.
  apply (idle_monitor_never_unlocks
           [Activity 7100; Tick 8000; Tick 20000; Activity 20001]
           (checkIdleTimeout 7000 IdleSample.world).2).
  reflexivity.
Defined.

(** ** Hooks, continued *)

Lemma ensureLeavesHooked_all (w : World) :
  Forall (fun v => isHooked v = true) (leaves (ensureLeavesHooked w)).
Proof.
  cbn. apply Forall_forall. intros v (u & -> & _)%list_elem_of_fmap.
  apply ensureHooked_probes_hooked.
Qed.

(** X15: when the switch of a hooked panel succeeds, then once it has
    settled every open panel is hooked, the panels the switch opened
    included; when it fails, the open panels are left exactly as the
    underlying operation left them, so a panel it opened stays
    unhooked. *)
Theorem successful_switch_hooks_new_panels
    (host : nat -> World -> Call World) (original : SetStateFn) (this : World) :
  let inner := call_setState host original (onBeforeViewStateChange this) in
  let outer := call_setState host
                 (HookWrapper original CallOnBeforeViewStateChange
                              CallOnAfterViewStateChange) this in
  match verdict (result inner) with
  | Succeeded =>
      leaves (settle outer) = map ensureHooked (leaves (settle inner))
      /\ Forall (fun v => isHooked v = true) (leaves (settle outer))
  | Failed => leaves (settle outer) = leaves (settle inner)
  | NothingReturned => result outer = Throw TypeError
  end.
Proof.
  intros inner outer.
  pose proof (wrapper_settles onBeforeViewStateChange onAfterViewStateChange
                (call_setState host original) this) as H.
  cbv zeta in H. fold inner in H.
  change (wrapper onBeforeViewStateChange onAfterViewStateChange
            (call_setState host original) this) with outer in H.
  destruct (verdict (result inner)).
  - destruct H as [_ ->]. split; [reflexivity |].
    apply (ensureLeavesHooked_all (set_timeouts _ (settle inner))).
  - destruct H as [_ ->]. reflexivity.
  - by destruct H.
Qed.

(** The sample switch, fulfilled and rejected. *)
Example switch_that_opens_a_panel :
  map isHooked
      (leaves (settle (call_setState (SwitchSample.host Fulfilled)
                         SwitchSample.hooked_setState SwitchSample.world)))
  = [true; true; true]
  /\ map isHooked
         (leaves (settle (call_setState (SwitchSample.host (Rejected (HostError 1)))
                            SwitchSample.hooked_setState SwitchSample.world)))
     = [true; true; false].
Proof. split; reflexivity. Qed.

(** X16: the [active-leaf-change] handler hooks before it restyles:
    afterwards every open panel is hooked, also when the restyling
    throws or when the host passes no leaf, in which case the handler
    throws a [TypeError]; otherwise it ends as the restyling of the
    panel ends. *)
Theorem active_leaf_change_hooks_first (e : option View) (this : World) :
  Forall (fun v => isHooked v = true) (leaves (onActiveLeafChange e this).2)
  /\ (onActiveLeafChange e this).1
     = match e with
       | None => Throw TypeError
       | Some view =>
           match shouldRevealLeaf this view with
           | Return _ => Return tt
           | Throw err => Throw err
           end
       end.
Proof.
  unfold onActiveLeafChange. destruct e as [view |]; cbn [fst snd].
  - destruct (updateLeafViewStyle_frame (ensureHooked view) (ensureLeavesHooked this))
      as ((_ & _ & _ & Hleaves & _) & _).
    split.
    + rewrite Hleaves. apply ensureLeavesHooked_all.
    + destruct (updateLeafViewStyle_result (ensureHooked view)
                  (ensureLeavesHooked this)) as [-> _].
      assert (Hsame : shouldRevealLeaf (ensureLeavesHooked this) (ensureHooked view)
                      = shouldRevealLeaf this view).
      { unfold ensureHooked. by destruct (isHooked view). }
      by rewrite Hsame.
  - split; [apply ensureLeavesHooked_all | reflexivity].
Qed.

(** ** Blanking and the deferred pass *)




(** ** Collecting the tags *)

Lemma truthy_string_iff (s : string) : truthy_string s = true <-> s ≠ "".
Proof.
  unfold truthy_string. destruct (String.eqb_spec s ""); cbn; split;
    first [done | discriminate | contradiction].
Qed.

(** X18: when the cache has an entry for the panel's file and the entry
    has a frontmatter object: if the properties have no tags key or a
    list under it, the tags are collected without an exception, and a
    value is collected exactly when it is truthy and is a body tag (as
    a string) or an item of that list; if the tags key holds anything
    but a list (a single string, nothing, a number), the collection
    throws a [TypeError]. *)
Theorem collected_tags (this : World) (view : View)
    (c : CachedMetadata) (fm : FrontMatterCache) :
  getFileCache (metadataCache this) (view_file view) = Return (Some c) ->
  frontmatter c = Some fm ->
  match tag_entries fm with
  | Some items =>
      exists ts,
        noteTags this view = Return ts
        /\ forall x, x ∈ ts
                     <-> truthy x = true
                         /\ (x ∈ map (fun b => YString (tag b)) (default [] (tags c))
                             \/ x ∈ items)
  | None => noteTags this view = Throw TypeError
  end.
Proof.
  intros Hcache Hfm. unfold noteTags, tag_entries. rewrite Hcache.
  destruct c as [bodyTags props]. cbn in Hfm. subst props.
  assert (Hbody : forall l x,
             x ∈ map (fun b => YString (tag b))
                     (List.filter (fun b => truthy_string (tag b)) l)
             <-> truthy x = true /\ x ∈ map (fun b => YString (tag b)) l).
  { intros l x. rewrite !list_elem_of_In, !in_map_iff. split.
    - intros (b & <- & [Hb Ht]%filter_In). split; [exact Ht |]. by exists b.
    - intros (Ht & b & <- & Hb). exists b. split; [done |].
      apply filter_In. by split. }
  assert (Hprops : forall l x,
             x ∈ List.filter truthy l <-> truthy x = true /\ x ∈ l).
  { intros l x. rewrite !list_elem_of_In, filter_In. tauto. }
  destruct bodyTags as [bs |], fm as [[[| b | n | s | items |] |]]; cbn;
    try reflexivity;
    eexists; (split; [reflexivity |]); intros x;
    rewrite ?elem_of_app, ?Hbody, ?Hprops, ?elem_of_nil; tauto.
Qed.

Lemma collected_tags_witness :
  exists ts,
    noteTags (Sample.world HidePrivate (Sample.cache Sample.tagged_private))
             (Sample.panel 1 "work/notes") = Return ts
    /\ forall x, x ∈ ts
                 <-> truthy x = true
                     /\ (x ∈ map (fun b => YString (tag b)) [ {| tag := "#private" |} ]
                         \/ x ∈ [YString "x"]).
Proof.
  apply (collected_tags
           (Sample.world HidePrivate (Sample.cache Sample.tagged_private))
           (Sample.panel 1 "work/notes")
           {| tags := Some [ {| tag := "#private" |} ];
              frontmatter := Some {| fm_tags := Some (YList [YString "x"]) |} |}
           {| fm_tags := Some (YList [YString "x"]) |});
    reflexivity.
Defined.

(** A note whose properties read [tags: private], and one whose list of
    tags holds a number and an empty string next to a tag. *)
Example tags_that_are_no_list_of_strings :
  noteTags (Sample.world HidePrivate (Sample.cache Sample.scalar_tag))
           (Sample.panel 1 "work/notes") = Throw TypeError
  /\ noteTags
       (Sample.world HidePrivate
          (Sample.cache
             (Some {| tags := None;
                      frontmatter :=
                        Some {| fm_tags :=
                                  Some (YList [YNumber 7; YString ""; YString "a"]) |} |})))
       (Sample.panel 1 "work/notes")
     = Return [YNumber 7; YString "a"].
Proof. split; reflexivity. Qed.

(** ** Restyling twice *)

Lemma pass_rest (ls : list View) (w : World) (el : ElemId) (c : string) :
  c ∉ kind_classes -> c ≠ CssClass.PrivacyGlassesReveal ->
  c ∈ classList (pass ls w).2 el <-> c ∈ classList w el.
Proof.
  intros Hc Hr. revert w. induction ls as [| u rest IH]; intros w; [done |].
  cbn [iterateAllLeaves].
  pose proof (updateLeafViewStyle_rest u w c Hc Hr) as Hrest.
  pose proof (updateLeafViewStyle_other u w el) as Hother.
  assert (Hstep : c ∈ classList (updateLeafViewStyle u w).2 el <-> c ∈ classList w el).
  { destruct (decide (el = containerEl u)) as [-> | Hne]; [exact Hrest |].
    by rewrite Hother. }
  destruct (updateLeafViewStyle u w) as [[[] | e] w1]; cbn [snd] in *.
  - by rewrite IH.
  - exact Hstep.
Qed.

(** X19: restyling is idempotent on what is shown.  When a pass over
    panels with distinct containers comes back without an exception, a
    second pass right after it does too and leaves the class list of
    every element exactly as the first pass left it; only [revealed]
    keeps growing. *)
Theorem restyling_twice_shows_the_same (this : World) :
  NoDup (map containerEl (leaves this)) ->
  (updateLeavesStyle this).1 = Return tt ->
  let once := (updateLeavesStyle this).2 in
  (updateLeavesStyle once).1 = Return tt
  /\ (forall el, classList (updateLeavesStyle once).2 el = classList once el)
  /\ exists added, revealed (updateLeavesStyle once).2 = revealed once ++ added.
Proof.
  intros Hnd Hok once. unfold updateLeavesStyle in *.
  destruct (pass_frame (leaves this) this) as (Hin & _). fold once in Hin.
  pose proof Hin as (Hlevel & _ & _ & Hleaves & _).
  rewrite Hleaves.
  assert (Hok2 : (pass (leaves this) once).1 = Return tt).
  { apply pass_result. apply pass_result in Hok.
    eapply Forall_impl; [exact Hok |]. intros v [b Hb]. exists b.
    by rewrite (same_inputs_decision this once). }
  split; [exact Hok2 |]. split; [| apply iterateAllLeaves_revealed].
  intros el.
  destruct (decide (el ∈ map containerEl (leaves this))) as [Hel | Hel];
    [| by apply pass_untouched].
  apply list_elem_of_fmap in Hel as (v & -> & Hv).
  destruct (pass_marks (leaves this) this v Hnd Hok Hv) as [Hr1 Hk1].
  destruct (pass_marks (leaves this) once v Hnd Hok2 Hv) as [Hr2 Hk2].
  fold once in Hr1, Hk1.
  apply set_eq. intros c.
  destruct (decide (c ∈ kind_classes)) as [Hc | Hc].
  - by rewrite (Hk2 c Hc), (Hk1 c Hc), Hlevel.
  - destruct (decide (c = CssClass.PrivacyGlassesReveal)) as [-> | Hne].
    + by rewrite Hr2, Hr1, (same_inputs_decision this once).
    + by apply pass_rest.
Qed.

Lemma restyling_twice_shows_the_same_witness :
  let once := (updateLeavesStyle PassSample.desk).2 in
  revealed once = [1; 9]
  /\ revealed (updateLeavesStyle once).2 = [1; 9; 1; 9]
  /\ (updateLeavesStyle once).1 = Return tt
  /\ (forall el, classList (updateLeavesStyle once).2 el = classList once el)
  /\ exists added, revealed (updateLeavesStyle once).2 = revealed once ++ added.
Proof.
  split; [reflexivity |]. split; [reflexivity |].
  apply (restyling_twice_shows_the_same PassSample.desk).
  - cbn. repeat constructor; rewrite ?elem_of_cons, ?elem_of_nil;
      intros H; repeat destruct H as [H | H]; done.
  - reflexivity.
Defined.
